(** * Financial statement analysis: a model of
      [HPE_GenAI_Project_LokeshSubmission.py]

    The Python module is embedded function by function.  Text is modelled by
    [string] (8-bit characters; the case conversions and the character
    classes of [re] are the ASCII ones), the libraries the module calls
    (PyMuPDF, camelot, spaCy, langchain, the Streamlit session) are the fields
    of a [World] record, and the effects of the module (the temporary files it
    leaves on disk and the widgets it draws) are threaded through a small
    state-and-exception monad.

    Three things are taken as given by the model.  The case conversions and
    the character classes are those of Python on ASCII text; on other text
    [str.lower()] is not a character-wise map (the final sigma) and [\s] and
    [\w] match more characters (the no-break space), so a statement that
    rests on a property they have on ASCII text only carries [isascii] as a
    hypothesis.  A temporary file can always be created and written, and a
    Streamlit call draws and returns: these are sources of exceptions in
    Python that the model does not have, and what is proved about exceptions
    concerns those of the libraries of [World] and of the module's own
    code. *)

From Stdlib Require Import String Ascii List Arith ZArith Lia Bool.
Import ListNotations.
Open Scope string_scope.

(* ===================================================================== *)
(** ** Python strings *)
(* ===================================================================== *)

Module PyStr.

Definition between (lo hi : nat) (c : ascii) : bool :=
  let n := nat_of_ascii c in ((lo <=? n)%nat && (n <=? hi)%nat)%bool.

Definition is_upper (c : ascii) : bool := between 65 90 c.
Definition is_lower (c : ascii) : bool := between 97 122 c.
Definition is_cased (c : ascii) : bool := is_upper c || is_lower c.
Definition is_digit (c : ascii) : bool := between 48 57 c.

Definition lower_char (c : ascii) : ascii :=
  if is_upper c then ascii_of_nat (nat_of_ascii c + 32) else c.
Definition upper_char (c : ascii) : ascii :=
  if is_lower c then ascii_of_nat (nat_of_ascii c - 32) else c.

(** [str.lower()] *)
Fixpoint lower (s : string) : string :=
  match s with
  | EmptyString => EmptyString
  | String c s' => String (lower_char c) (lower s')
  end.

(** [str.title()]: a cased character is upper-cased when the character
    before it is not cased, and lower-cased otherwise. *)
Fixpoint title_from (previous_is_cased : bool) (s : string) : string :=
  match s with
  | EmptyString => EmptyString
  | String c s' =>
      String (if previous_is_cased then lower_char c else upper_char c)
             (title_from (is_cased c) s')
  end.
Definition title (s : string) : string := title_from false s.

(** [needle in hay] *)
Fixpoint contains (needle hay : string) : bool :=
  prefix needle hay ||
  match hay with
  | EmptyString => false
  | String _ hay' => contains needle hay'
  end.

(** Truth value of a string: [if s:] *)
Definition truthy (s : string) : bool :=
  match s with EmptyString => false | String _ _ => true end.

(** [str.isascii()] *)
Fixpoint isascii (s : string) : bool :=
  match s with
  | EmptyString => true
  | String c s' => (nat_of_ascii c <? 128)%nat && isascii s'
  end.

(** [str(n)] for a non-negative integer *)
Fixpoint digits_of (fuel n : nat) (acc : string) : string :=
  match fuel with
  | O => acc
  | S fuel' =>
      let acc' := String (ascii_of_nat (48 + n mod 10)) acc in
      if (n <? 10)%nat then acc' else digits_of fuel' (n / 10) acc'
  end.
Definition str_of_nat (n : nat) : string := digits_of (S n) n "".

Fixpoint join (l : list string) : string :=
  match l with
  | [] => ""
  | s :: l' => s ++ join l'
  end.

End PyStr.

(* ===================================================================== *)
(** ** The fragment of [re] the module uses *)
(* ===================================================================== *)

Module Re.
Import PyStr.

(** Single-character items: [\s], [\w], [\d] and [.] *)
Inductive cls : Type := Space | Word | Digit | Dot.

Definition cls_match (c : cls) (a : ascii) : bool :=
  match c with
  | Space => between 9 13 a || between 28 32 a
  | Word  => is_upper a || is_lower a || is_digit a || Ascii.eqb a "_"
  | Digit => is_digit a
  | Dot   => negb (Ascii.eqb a "010")
  end.

(** Patterns.  A quantifier applies to one single-character item, which is
    all the two patterns of the module need: [Rep c lo hi] is the greedy
    [c{lo,hi}], with [hi = None] for an open upper bound. *)
Inductive regex : Type :=
| Eps
| Chr (a : ascii)
| Item (c : cls)
| Rep (c : cls) (lo : nat) (hi : option nat)
| Cat (r1 r2 : regex)
| Alt (r1 r2 : regex)
| Grp (n : nat) (r : regex).

Fixpoint lit (s : string) : regex :=
  match s with
  | EmptyString => Eps
  | String a s' => Cat (Chr a) (lit s')
  end.

Definition star (c : cls) : regex := Rep c 0 None.
Definition plus (c : cls) : regex := Rep c 1 None.

Declare Scope re_scope.
Delimit Scope re_scope with re.
Infix "+++" := Cat (at level 60, right associativity) : re_scope.
Infix "<|>" := Alt (at level 70, right associativity) : re_scope.

(** Group marks: the span (start, end) of the last text a group matched,
    counted from the position where the match was attempted. *)
Definition span : Type := (nat * nat)%type.
Definition marks : Type := nat -> option span.
Definition no_marks : marks := fun _ => None.
Definition set_mark (n : nat) (sp : span) (g : marks) : marks :=
  fun m => if Nat.eqb m n then Some sp else g m.

Definition may_take (hi : option nat) : bool :=
  match hi with Some O => false | _ => true end.

Section Backtracking.
Context {T : Type}.

(** Greedy repetition: take one more character while allowed, and give a
    character back each time the rest of the pattern fails. *)
Fixpoint rep (c : cls) (lo : nat) (hi : option nat) (pos : nat) (s : string)
         (k : nat -> string -> option T) : option T :=
  let stop := match lo with O => k pos s | S _ => None end in
  if may_take hi then
    match s with
    | EmptyString => stop
    | String a s' =>
        if cls_match c a then
          match rep c (pred lo) (option_map pred hi) (S pos) s' k with
          | Some x => Some x
          | None => stop
          end
        else stop
    end
  else stop.

(** The backtracking matcher, in continuation-passing style: [k] is the
    rest of the pattern.  Alternatives are tried left to right. *)
Fixpoint rmatch (r : regex) (pos : nat) (s : string) (g : marks)
         (k : nat -> string -> marks -> option T) : option T :=
  match r with
  | Eps => k pos s g
  | Chr a =>
      match s with
      | String b s' => if Ascii.eqb b a then k (S pos) s' g else None
      | EmptyString => None
      end
  | Item c =>
      match s with
      | String b s' => if cls_match c b then k (S pos) s' g else None
      | EmptyString => None
      end
  | Rep c lo hi => rep c lo hi pos s (fun pos' s' => k pos' s' g)
  | Cat r1 r2 => rmatch r1 pos s g (fun pos' s' g' => rmatch r2 pos' s' g' k)
  | Alt r1 r2 =>
      match rmatch r1 pos s g k with
      | Some x => Some x
      | None => rmatch r2 pos s g k
      end
  | Grp n r => rmatch r pos s g (fun pos' s' g' => k pos' s' (set_mark n (pos, pos') g'))
  end.
End Backtracking.

(** [pattern.match(s)]: the end of the match and the group marks. *)
Definition match_here (r : regex) (s : string) : option (nat * marks) :=
  rmatch r 0 s no_marks (fun pos _ g => Some (pos, g)).

(** Number of groups of a pattern. *)
Fixpoint ngroups (r : regex) : nat :=
  match r with
  | Cat r1 r2 | Alt r1 r2 => Nat.max (ngroups r1) (ngroups r2)
  | Grp n r => Nat.max n (ngroups r)
  | _ => 0
  end.

(** Text of group [n]; a group that took no part in the match gives [""],
    as in [re.findall]. *)
Definition group_text (s : string) (g : marks) (n : nat) : string :=
  match g n with
  | Some (b, e) => substring b (e - b) s
  | None => ""
  end.

Definition groups_tuple (r : regex) (s : string) (g : marks) : list string :=
  map (group_text s g) (seq 1 (ngroups r)).

(** [re.findall(r, s)] for a pattern with several groups: scan left to
    right, one tuple of group texts per match, resuming after each match
    ([skip] characters are still covered by the previous match). *)
Fixpoint findall_from (r : regex) (s : string) (skip : nat) : list (list string) :=
  match s with
  | EmptyString =>
      match match_here r s with
      | Some (_, g) => [groups_tuple r s g]
      | None => []
      end
  | String _ s' =>
      match skip with
      | S skip' => findall_from r s' skip'
      | O =>
          match match_here r s with
          | Some (e, g) => groups_tuple r s g :: findall_from r s' (pred e)
          | None => findall_from r s' 0
          end
      end
  end.
Definition findall (r : regex) (s : string) : list (list string) :=
  findall_from r s 0.

(** [re.search(r, s).start()]: the first position where the pattern
    matches, if any. *)
Fixpoint search_start (r : regex) (s : string) : option nat :=
  match match_here r s with
  | Some _ => Some 0
  | None =>
      match s with
      | EmptyString => None
      | String _ s' => option_map S (search_start r s')
      end
  end.

(** Group [n] occurs in the pattern. *)
Fixpoint mentions (n : nat) (r : regex) : bool :=
  match r with
  | Cat r1 r2 | Alt r1 r2 => mentions n r1 || mentions n r2
  | Grp m r => Nat.eqb n m || mentions n r
  | _ => false
  end.

(** [re.search(r, s) is not None] *)
Fixpoint search (r : regex) (s : string) : bool :=
  match match_here r s with
  | Some _ => true
  | None =>
      match s with
      | EmptyString => false
      | String _ s' => search r s'
      end
  end.

End Re.

Import PyStr Re.

(* ===================================================================== *)
(** ** Exceptions, the disk, the page and the monad of the module *)
(* ===================================================================== *)

(** The exceptions that occur: the first four are raised by Python and
    pandas themselves, [LibraryError] by a library of the [World]. *)
Inductive Exn : Type :=
| UnboundLocalError (name : string)
| KeyError (key : string)
| IndexError (msg : string)
| FileNotFoundError (path : string)
| LibraryError (msg : string).

(** [str(e)], as interpolated by [f"...{e}"]; for the unbound local
    variable, in the wording of Python 3.11 and later. *)
Definition str_exn (e : Exn) : string :=
  match e with
  | UnboundLocalError name =>
      "cannot access local variable '" ++ name
        ++ "' where it is not associated with a value"
  | KeyError key => key
  | IndexError msg => msg
  | FileNotFoundError path => "[Errno 2] No such file or directory: '" ++ path ++ "'"
  | LibraryError msg => msg
  end.

Definition bytes : Type := string.

(** A table grid (camelot's [table.df]): rows of string cells. *)
Definition Grid : Type := list (list string).

(** A bounding box (x1, y1, x2, y2); the module only passes it on. *)
Definition BBox : Type := (Z * Z * Z * Z)%type.

Inductive Container : Type :=
| Sidebar
| Expander (label : string).

(** What the Streamlit page receives, in order. *)
Inductive Event : Type :=
| St_title (s : string)
| St_header (s : string)
| St_subheader (s : string)
| St_write (s : string)
| St_error (s : string)
| St_dataframe (g : Grid)
| St_image (file caption : string)
| St_file_uploader (label : string)
| St_text_input (label : string)
| Enter (c : Container)
| Leave (c : Container).

(** The state the module acts on: the files on disk (latest first), the
    number of temporary names handed out, and the page drawn so far. *)
Record Sys : Type := mkSys {
  disk : list (string * bytes);
  tmp_seq : nat;
  screen : list Event
}.

Inductive Outcome (A : Type) : Type :=
| Return (a : A)
| Raise (e : Exn).
Arguments Return {A} a.
Arguments Raise {A} e.

Definition M (A : Type) : Type := Sys -> Sys * Outcome A.

Definition ret {A} (a : A) : M A := fun s => (s, Return a).
Definition raise {A} (e : Exn) : M A := fun s => (s, Raise e).
Definition bind {A B} (m : M A) (f : A -> M B) : M B :=
  fun s =>
    match m s with
    | (s', Return a) => f a s'
    | (s', Raise e) => (s', Raise e)
    end.

(** [try: body except Exception as e: handler e] *)
Definition try_except {A} (body : M A) (handler : Exn -> M A) : M A :=
  fun s =>
    match body s with
    | (s', Return a) => (s', Return a)
    | (s', Raise e) => handler e s'
    end.

(** The result of a library call *)
Definition call {A} (r : Exn + A) : M A :=
  match r with
  | inr a => ret a
  | inl e => raise e
  end.

Declare Scope py_scope.
Delimit Scope py_scope with py.
Notation "x <- c ;; k" := (bind c (fun x => k))
  (at level 61, c at next level, right associativity) : py_scope.
Notation "c ;; k" := (bind c (fun _ => k))
  (at level 61, right associativity) : py_scope.
Open Scope py_scope.

Definition emit (e : Event) : M unit :=
  fun s => (mkSys (disk s) (tmp_seq s) (screen s ++ [e]), Return tt).

Definition st_title s := emit (St_title s).
Definition st_header s := emit (St_header s).
Definition st_subheader s := emit (St_subheader s).
Definition st_write s := emit (St_write s).
Definition st_error s := emit (St_error s).
Definition st_dataframe g := emit (St_dataframe g).
Definition st_image file caption := emit (St_image file caption).

(** [with container: body]: the container is left on every exit. *)
Definition within {A} (c : Container) (body : M A) : M A :=
  fun s =>
    match (emit (Enter c) ;; body) s with
    | (s', o) => (fst (emit (Leave c) s'), o)
    end.

(** [for x in l: body x], with the local variables the body assigns
    threaded through as [acc]. *)
Fixpoint for_each {A L} (l : list A) (body : L -> A -> M L) (acc : L) : M L :=
  match l with
  | [] => ret acc
  | x :: l' => acc' <- body acc x ;; for_each l' body acc'
  end.

Definition enumerate {A} (l : list A) : list (nat * A) :=
  combine (seq 0 (length l)) l.

(** *** Temporary files *)

Definition tmp_name (n : nat) (suffix : string) : string :=
  "/tmp/tmp" ++ str_of_nat n ++ suffix.

Fixpoint disk_lookup (d : list (string * bytes)) (path : string) : option bytes :=
  match d with
  | [] => None
  | (p, c) :: d' => if String.eqb p path then Some c else disk_lookup d' path
  end.

Definition disk_remove (d : list (string * bytes)) (path : string) :=
  filter (fun pc => negb (String.eqb (fst pc) path)) d.

Definition file_write (path : string) (content : bytes) : M unit :=
  fun s =>
    (mkSys ((path, content) :: disk_remove (disk s) path) (tmp_seq s) (screen s),
     Return tt).

Definition file_unlink (path : string) : M unit :=
  fun s => (mkSys (disk_remove (disk s) path) (tmp_seq s) (screen s), Return tt).

Definition read_file (path : string) : M bytes :=
  fun s =>
    match disk_lookup (disk s) path with
    | Some c => (s, Return c)
    | None => (s, Raise (FileNotFoundError path))
    end.

(** [with tempfile.NamedTemporaryFile(delete=..., suffix=...) as f: body f]:
    a file with a fresh name is created; when the block is left the file is
    closed, and removed only if [delete] is set. *)
Definition NamedTemporaryFile {A} (delete : bool) (suffix : string)
           (body : string -> M A) : M A :=
  fun s =>
    let name := tmp_name (tmp_seq s) suffix in
    let s1 := mkSys ((name, "") :: disk s) (S (tmp_seq s)) (screen s) in
    match body name s1 with
    | (s2, o) => if delete then (fst (file_unlink name s2), o) else (s2, o)
    end.

(* ===================================================================== *)
(** ** The libraries *)
(* ===================================================================== *)

(** A page of a PyMuPDF document: its text, and its text inside a clip. *)
Record Page : Type := mkPage {
  get_text : string;
  get_text_clip : BBox -> string
}.
Definition Document : Type := list Page.

(** [doc[i]]: page [i], counted from the end when [i] is negative; an
    index at or beyond the page count is refused.  (The module only asks
    for [table.page - 1] with camelot's page numbers, which start at 1.) *)
Definition doc_getitem (doc : Document) (i : Z) : Exn + Page :=
  let n := Z.of_nat (length doc) in
  if (i <? n)%Z then
    match nth_error doc (Z.to_nat (i mod n)) with
    | Some p => inr p
    | None => inl (IndexError "page not in document")
    end
  else inl (IndexError "page not in document").

(** A table found by camelot. *)
Module Table.
Record t : Type := mk {
  page : Z;
  _bbox : BBox;
  df : Grid
}.
End Table.

Definition Index : Type := list string.

(** The collaborators of the module; each call either returns or raises. *)
Record World : Type := mkWorld {
  uploaded_file : option bytes;
  question : string;
  fitz_open : bytes -> Exn + Document;
  spacy_ents : string -> Exn + list (string * string);
  camelot_read_pdf : bytes -> Exn + list Table.t;
  loader_load_and_split : bytes -> Exn + list string;
  split_documents : string -> nat -> nat -> list string -> Exn + list string;
  from_documents : list string -> Exn + Index;
  OpenAI : Exn + unit;
  RetrievalQA_from_chain_type :
    Index -> Exn + (string -> Exn + (string * string))
}.

(** *** The part of pandas the module uses *)

Module Pd.

Inductive Label : Type := Int (n : nat) | Str (s : string).

Definition label_eqb (a b : Label) : bool :=
  match a, b with
  | Int n, Int m => Nat.eqb n m
  | Str s, Str t => String.eqb s t
  | _, _ => false
  end.

Definition repr (l : Label) : string :=
  match l with
  | Int n => str_of_nat n
  | Str s => "'" ++ s ++ "'"
  end.

(** A series: values under their index labels. *)
Definition Series (A : Type) : Type := list (nat * A).

Record DataFrame : Type := mk {
  columns : list Label;
  rows : list (nat * list string)
}.

(** [pd.DataFrame(data)] for a list of tuples: one row per tuple, columns
    [0 .. width-1]; no column at all for an empty list. *)
Definition of_tuples (data : list (list string)) : DataFrame :=
  mk (map Int (seq 0 (length (hd [] data)))) (enumerate data).

(** [pd.DataFrame(data, columns=[c])] for a list of strings *)
Definition of_list (data : list string) (c : string) : DataFrame :=
  mk [Str c] (enumerate (map (fun x => [x]) data)).

Fixpoint position (c : Label) (cols : list Label) : option nat :=
  match cols with
  | [] => None
  | c' :: cols' =>
      if label_eqb c' c then Some 0 else option_map S (position c cols')
  end.

(** [df[c]] *)
Definition getitem (d : DataFrame) (c : Label) : Exn + Series string :=
  match position c (columns d) with
  | Some j => inr (map (fun r => (fst r, nth j (snd r) "")) (rows d))
  | None => inl (KeyError (repr c))
  end.

(** [series[i]], by index label *)
Definition at_label {A} (s : Series A) (i : nat) : Exn + A :=
  match find (fun p => Nat.eqb (fst p) i) s with
  | Some p => inr (snd p)
  | None => inl (KeyError (str_of_nat i))
  end.

Definition str_lower (s : Series string) : Series string :=
  map (fun p => (fst p, lower (snd p))) s.

(** [series.str.contains(pat)]: [pat] is a regular expression. *)
Definition str_contains (s : Series string) (pat : regex) : Series bool :=
  map (fun p => (fst p, search pat (snd p))) s.

(** [df[mask]] *)
Definition select (d : DataFrame) (mask : Series bool) : DataFrame :=
  mk (columns d)
     (filter (fun r =>
                match find (fun p => Nat.eqb (fst p) (fst r)) mask with
                | Some (_, b) => b
                | None => false
                end) (rows d)).

(** [df.empty] *)
Definition empty (d : DataFrame) : bool :=
  match columns d, rows d with
  | _ :: _, _ :: _ => false
  | _, _ => true
  end.

(** [df.iloc[n][c]] *)
Definition iloc_at (d : DataFrame) (n : nat) (c : Label) : Exn + string :=
  match nth_error (rows d) n with
  | None => inl (IndexError "single positional indexer is out-of-bounds")
  | Some r =>
      match position c (columns d) with
      | Some j => inr (nth j (snd r) "")
      | None => inl (KeyError (repr c))
      end
  end.

End Pd.

(* ===================================================================== *)
(** ** The module *)
(* ===================================================================== *)

(** [date_pattern] of [extract_specific_dates]:
    [(for the (quarterly|fiscal) period ended:\s*(\w+\s\d{1,2},\s\d{4}))|(for the  fiscal year ended:\s*(\w+\s\d{1,2},\s\d{4}))] *)
Definition date_re : regex :=
  (plus Word +++ Item Space +++ Rep Digit 1 (Some 2) +++ Chr "," +++ Item Space
   +++ Rep Digit 4 (Some 4))%re.

Definition date_pattern : regex :=
  (Grp 1 (lit "for the " +++ Grp 2 (lit "quarterly" <|> lit "fiscal")
          +++ lit " period ended:" +++ star Space +++ Grp 3 date_re)
   <|> Grp 4 (lit "for the  fiscal year ended:" +++ star Space +++ Grp 5 date_re))%re.

(** The pattern of the company filter in [main]:
    [company|inc.|ltd|enterprise|corporation] *)
Definition company_pattern : regex :=
  (lit "company" <|> (lit "inc" +++ Item Dot) <|> lit "ltd" <|> lit "enterprise"
   <|> lit "corporation")%re.

Definition keywords_of_main : list string :=
  ["Earnings before provision for taxes"; "total current assets";
   "total current liabilities"; "net cash provided by operating activities";
   "net cash used in investing activities"].

Definition table_labels : list string :=
  ["Consolidated Statements of Earnings"; "Consolidated Balance Sheets";
   "Consolidated Statements of Cash Flows"].

Definition contains_keywords (text : string) (keywords : list string) : bool :=
  existsb (fun keyword => contains (lower keyword) (lower text)) keywords.

Section Pipeline.
Variable w : World.

Definition st_file_uploader (label : string) : M (option bytes) :=
  emit (St_file_uploader label) ;; ret (uploaded_file w).

Definition st_text_input (label : string) : M string :=
  emit (St_text_input label) ;; ret (question w).

(** The loader reads the saved file; the splitter is called with
    [separator="\n", chunk_size=2000, chunk_overlap=200]. *)
Definition load_pdf_and_create_index (file_content : bytes) : M Index :=
  temp_file_path_qa <-
    NamedTemporaryFile false "pdf" (fun temp_file_qa =>
      file_write temp_file_qa file_content ;;
      ret temp_file_qa) ;;
  pdf <- read_file temp_file_path_qa ;;
  pages <- call (loader_load_and_split w pdf) ;;
  texts <- call (split_documents w (String "010" "") 2000 200 pages) ;;
  vectorstore_index <- call (from_documents w texts) ;;
  ret vectorstore_index.

(** [doc.close()] releases the handle and has no effect on [Sys]. *)
Definition extract_text_from_pdf (file_content : bytes) : M string :=
  doc <- call (fitz_open w file_content) ;;
  text <- for_each doc (fun text page => ret (text ++ get_text page)) "" ;;
  ret text.

(** [spacy_ents] stands for [spacy.load("en_core_web_sm")(text).ents], as
    pairs of [ent.text] and [ent.label_]. *)
Definition extract_company_name (text : string) : M (list string) :=
  ents <- call (spacy_ents w text) ;;
  ret (map fst (filter (fun ent => String.eqb (snd ent) "ORG") ents)).

(** The locals of the loop are [doc], unbound ([None]) until the first turn
    assigns it, and [keyword_tables].  After the loop [doc.close()] needs
    [doc] to be bound. *)
Definition extract_key_tables_from_pdf (file_content : bytes)
           (keywords : list string) : M (list Grid) :=
  temp_file_path <-
    NamedTemporaryFile false ".pdf" (fun temp_file =>
      file_write temp_file file_content ;;
      ret temp_file) ;;
  if truthy temp_file_path then
    try_except
      (pdf <- read_file temp_file_path ;;
       tables <- call (camelot_read_pdf w pdf) ;;
       locals <-
         for_each tables (fun (locals : option Document * list Grid) table =>
           let keyword_tables := snd locals in
           let page := Table.page table in
           let table_bbox := Table._bbox table in
           let table_df := Table.df table in
           pdf' <- read_file temp_file_path ;;
           doc <- call (fitz_open w pdf') ;;
           pg <- call (doc_getitem doc (page - 1)) ;;
           let page_text := get_text_clip pg table_bbox in
           if contains_keywords page_text keywords
           then ret (Some doc, (keyword_tables ++ [table_df])%list)
           else ret (Some doc, keyword_tables))
         (None, []) ;;
       match fst locals with
       | None => raise (UnboundLocalError "doc")
       | Some _ => ret tt
       end ;;
       ret (snd locals))
      (fun e =>
         st_error ("An error occurred while reading key tables from PDF: "
                     ++ str_exn e) ;;
         ret [])
  else
    (st_error "Failed to save the uploaded PDF file." ;;
     ret []).

Definition extract_specific_dates (text : string) : M string :=
  let matches := findall date_pattern (lower text) in
  let df_period := Pd.of_tuples matches in
  column <- call (Pd.getitem df_period (Pd.Int 0)) ;;
  first <- call (Pd.at_label column 0) ;;
  ret (title first).

(** The blocks of [main], in the order of the source. *)

Definition company_name_and_period_ending (text : string) : M unit :=
  within (Expander "Company Name & Period Ending")
    (company_names <- extract_company_name text ;;
     match company_names with
     | _ :: _ =>
         let df := Pd.of_list company_names "Company Name" in
         column <- call (Pd.getitem df (Pd.Str "Company Name")) ;;
         let filtered_df :=
           Pd.select df (Pd.str_contains (Pd.str_lower column) company_pattern) in
         first_company <-
           (if negb (Pd.empty filtered_df)
            then call (Pd.iloc_at filtered_df 0 (Pd.Str "Company Name"))
            else ret "Unknown") ;;
         st_write (" - " ++ title first_company)
     | [] => st_write "No company names found in the document."
     end ;;
     doc_period <- extract_specific_dates text ;;
     if truthy doc_period
     then st_write (" - " ++ doc_period)
     else st_write "No specific dates found in the document.").

Definition show_tables (dataframes : list Grid) : M unit :=
  match dataframes with
  | _ :: _ =>
      for_each (enumerate (firstn 3 dataframes)) (fun _ i_df =>
        let i := fst i_df in
        let df := snd i_df in
        let table_label :=
          if (i <? length table_labels)%nat then nth i table_labels ""
          else "Table " ++ str_of_nat (i + 1) in
        st_subheader table_label ;;
        st_dataframe df) tt
  | [] => st_write "No tables matching the specified keywords extracted."
  end.

Definition key_financial_statements (file_content : bytes) : M unit :=
  within (Expander "Key Financial Statements")
    (dataframes <- extract_key_tables_from_pdf file_content keywords_of_main ;;
     show_tables dataframes).

(** The [try] block of [main] around the language model and the QA
    section; [qa] is the chain, called with the query, and [result] its
    answer and the rendering of its source documents. *)
Definition qa_section (file_content : bytes) : M unit :=
  try_except
    (vectorstore_index <- load_pdf_and_create_index file_content ;;
     llm <- call (OpenAI w) ;;
     qa <- call (RetrievalQA_from_chain_type w vectorstore_index) ;;
     within (Expander "Q & A with uploaded Financial Statement")
       (query <- st_text_input "Ask a question about the financial report" ;;
        if truthy query then
          (result <- call (qa query) ;;
           st_write ("Answer: " ++ fst result) ;;
           st_write ("Source Documents: " ++ snd result))
        else ret tt))
    (fun e =>
       st_error ("An error occurred while executing QA Section: " ++ str_exn e)).

Definition main : M unit :=
  st_title "Financial Statement Analysis of Form 10-K & 10-Q Reports" ;;
  within Sidebar
    (st_header "Basic Information:" ;;
     st_write "1. Form 10-K is a Annual Report & Audited Financial Statements which is filed every Fiscal Year" ;;
     st_write "2. Form 10-Q is a Quarterly Report & Unaudited Financial Statements filed every Fiscal Quarter" ;;
     st_write "3. Both Forms are filed by Public Co. to US SEC about their Financial Performance" ;;
     st_write "----------------------------" ;;
     st_header "About Model:" ;;
     st_write "As you upload Financial Statements, model identifies Company Name, Period Ending and extracts 3 important Financials i.e.," ;;
     st_write "i) Earnings Statement" ;;
     st_write "ii) Balance Sheet" ;;
     st_write "iii) Cash Flow Statement") ;;
  pdf_file <-
    st_file_uploader "Kindly upload PDF format of Financial Statements as shown in below example snapshot" ;;
  match pdf_file with
  | Some file_content =>
      try_except
        (text <- extract_text_from_pdf file_content ;;
         st_write "========================================================================================" ;;
         st_subheader "Key Points on Document Uploaded:" ;;
         company_name_and_period_ending text ;;
         key_financial_statements file_content ;;
         qa_section file_content)
        (fun e => st_error ("An error occurred: " ++ str_exn e))
  | None =>
      st_image "Financial_Statement_Format.PNG" "Example Document"
  end.

End Pipeline.

(* ===================================================================== *)
(** ** A sample filing *)
(* ===================================================================== *)

Module Sample.

Definition s0 : Sys := mkSys [] 0 [].

Definition pdf : bytes := "%PDF-1.7 sample".

Definition box_a : BBox := (50, 100, 550, 300)%Z.
Definition box_b : BBox := (50, 320, 550, 400)%Z.

Definition bbox_eqb (a b : BBox) : bool :=
  match a, b with
  | (a1, a2, a3, a4), (b1, b2, b3, b4) =>
      (a1 =? b1)%Z && (a2 =? b2)%Z && (a3 =? b3)%Z && (a4 =? b4)%Z
  end.

Definition page1 : Page :=
  mkPage "Hewlett Packard Enterprise Company  Form 10-Q  For the quarterly period ended: April 30, 2024 "
         (fun b => if bbox_eqb b box_a
                   then "Earnings Before Provision For Taxes 403"
                   else "Notes to the statements").
Definition page2 : Page :=
  mkPage "Total Current Assets 19,553 "
         (fun b => if bbox_eqb b box_a then "TOTAL CURRENT ASSETS 19,553" else "").

Definition doc : Document := [page1; page2].

Definition earnings : Grid := [["Earnings before provision for taxes"; "403"]].
Definition notes : Grid := [["Note"; "1"]].
Definition balance : Grid := [["Total current assets"; "19,553"]].

Definition tables : list Table.t :=
  [Table.mk 1 box_a earnings; Table.mk 1 box_b notes; Table.mk 2 box_a balance].

Definition world : World :=
  mkWorld (Some pdf) "What are total current assets?"
    (fun b => if String.eqb b pdf then inr doc
              else inl (LibraryError "Failed to open stream"))
    (fun _ => inr [("Hewlett Packard Enterprise Company", "ORG");
                     ("April 30", "DATE")])
    (fun b => if String.eqb b pdf then inr tables
              else inl (LibraryError "No tables"))
    (fun _ => inr ["page 1"; "page 2"])
    (fun _ _ _ pages => inr pages)
    (fun texts => inr texts)
    (inr tt)
    (fun _ => inr (fun q => inr ("19,553", "[page 2]"))).

(** The same filing, read by a detector that finds no table in it. *)
Definition world_without_tables : World :=
  mkWorld (uploaded_file world) (question world) (fitz_open world)
    (spacy_ents world) (fun _ => inr [])
    (loader_load_and_split world) (split_documents world)
    (from_documents world) (OpenAI world) (RetrievalQA_from_chain_type world).

(** A filing whose text has no period statement. *)
Definition undated_text : string :=
  "Hewlett Packard Enterprise Company Annual Report 2023".
Definition world_undated : World :=
  mkWorld (uploaded_file world) (question world)
    (fun b => if String.eqb b pdf
              then inr [mkPage undated_text (get_text_clip page1); page2]
              else inl (LibraryError "Failed to open stream"))
    (spacy_ents world) (camelot_read_pdf world)
    (loader_load_and_split world) (split_documents world)
    (from_documents world) (OpenAI world) (RetrievalQA_from_chain_type world).

(** A filing dated by its fiscal year. *)
Definition fiscal_year_text : string :=
  "FORM 10-K For the  fiscal year ended: October 31, 2023 Commission file number 001-37483".

(** A recognizer that finds a university and no company. *)
Definition world_princeton : World :=
  mkWorld (uploaded_file world) (question world) (fitz_open world)
    (fun _ => inr [("Princeton University", "ORG")])
    (camelot_read_pdf world)
    (loader_load_and_split world) (split_documents world)
    (from_documents world) (OpenAI world) (RetrievalQA_from_chain_type world).

(** The language model of the recognizer is not installed. *)
Definition world_without_recognizer : World :=
  mkWorld (uploaded_file world) (question world) (fitz_open world)
    (fun _ => inl (LibraryError "[E050] Can't find model 'en_core_web_sm'."))
    (camelot_read_pdf world)
    (loader_load_and_split world) (split_documents world)
    (from_documents world) (OpenAI world) (RetrievalQA_from_chain_type world).

(** Table detection fails and no credential is configured. *)
Definition world_tables_and_qa_down : World :=
  mkWorld (uploaded_file world) (question world) (fitz_open world)
    (spacy_ents world)
    (fun _ => inl (LibraryError "Ghostscript is not installed"))
    (loader_load_and_split world) (split_documents world)
    (from_documents world)
    (inl (LibraryError "Did not find openai_api_key"))
    (RetrievalQA_from_chain_type world).

(** The second table is said to be on a page the document does not have. *)
Definition tables_with_stray_page : list Table.t :=
  [Table.mk 1 box_a earnings; Table.mk 7 box_b notes; Table.mk 2 box_a balance].
Definition world_with_stray_page : World :=
  mkWorld (uploaded_file world) (question world) (fitz_open world)
    (spacy_ents world) (fun _ => inr tables_with_stray_page)
    (loader_load_and_split world) (split_documents world)
    (from_documents world) (OpenAI world) (RetrievalQA_from_chain_type world).

(** Nothing is uploaded. *)
Definition world_without_upload : World :=
  mkWorld None (question world) (fitz_open world)
    (spacy_ents world) (camelot_read_pdf world)
    (loader_load_and_split world) (split_documents world)
    (from_documents world) (OpenAI world) (RetrievalQA_from_chain_type world).

(** The uploaded bytes are not a document. *)
Definition world_unreadable : World :=
  mkWorld (Some "not a pdf") (question world) (fitz_open world)
    (spacy_ents world) (camelot_read_pdf world)
    (loader_load_and_split world) (split_documents world)
    (from_documents world) (OpenAI world) (RetrievalQA_from_chain_type world).

(** No question is typed, and the chain would fail on any question. *)
Definition world_without_question : World :=
  mkWorld (uploaded_file world) "" (fitz_open world)
    (spacy_ents world) (camelot_read_pdf world)
    (loader_load_and_split world) (split_documents world)
    (from_documents world) (OpenAI world)
    (fun _ => inr (fun q => inl (LibraryError "RateLimitError"))).

(** The embedding service is down while the index is built. *)
Definition world_without_embeddings : World :=
  mkWorld (uploaded_file world) (question world) (fitz_open world)
    (spacy_ents world) (camelot_read_pdf world)
    (loader_load_and_split world) (split_documents world)
    (fun _ => inl (LibraryError "APIConnectionError"))
    (OpenAI world) (RetrievalQA_from_chain_type world).


(** A recognizer that finds organizations, none with a marker: "Apple Inc"
    has no character after "inc". *)
Definition world_without_marker : World :=
  mkWorld (uploaded_file world) (question world) (fitz_open world)
    (fun _ => inr [("SEC", "ORG"); ("Apple Inc", "ORG"); ("Cupertino", "GPE")])
    (camelot_read_pdf world)
    (loader_load_and_split world) (split_documents world)
    (from_documents world) (OpenAI world) (RetrievalQA_from_chain_type world).

(** A question is typed, and the chain fails on it. *)
Definition world_rate_limited : World :=
  mkWorld (uploaded_file world) "What is revenue?" (fitz_open world)
    (spacy_ents world) (camelot_read_pdf world)
    (loader_load_and_split world) (split_documents world)
    (from_documents world) (OpenAI world)
    (fun _ => inr (fun q => inl (LibraryError "RateLimitError"))).

End Sample.

(* ===================================================================== *)
(** ** Running the monad *)
(* ===================================================================== *)

(** The state a call ends in, and what it returns or raises. *)
Definition state_after {A} (m : M A) (s : Sys) : Sys := fst (m s).
Definition outcome {A} (m : M A) (s : Sys) : Outcome A := snd (m s).

(** The state once the uploaded bytes are saved under a fresh name. *)
Definition saved (s : Sys) (suffix : string) (content : bytes) : Sys :=
  let name := tmp_name (tmp_seq s) suffix in
  mkSys ((name, content) :: disk_remove (disk s) name) (S (tmp_seq s)) (screen s).

Definition with_screen (s : Sys) (evs : list Event) : Sys :=
  mkSys (disk s) (tmp_seq s) evs.

(** A text has a keyword when the lower-cased keyword occurs somewhere in
    the lower-cased text. *)
Definition has_keyword (text : string) (keywords : list string) : Prop :=
  exists keyword, In keyword keywords /\
    exists pre post, lower text = pre ++ lower keyword ++ post.

(** The text the Table Locator reads for a table: the text of the table's
    page inside the table's bounding box, when the document opens and has
    that page. *)
Definition neighborhood (w : World) (pdf : bytes) (t : Table.t) : option string :=
  match fitz_open w pdf with
  | inr doc =>
      match doc_getitem doc (Table.page t - 1) with
      | inr pg => Some (get_text_clip pg (Table._bbox t))
      | inl _ => None
      end
  | inl _ => None
  end.

Definition keeps (w : World) (pdf : bytes) (keywords : list string)
           (t : Table.t) : bool :=
  match neighborhood w pdf t with
  | Some text => contains_keywords text keywords
  | None => false
  end.

(** The grids of the tables whose neighborhood has a keyword, in detection
    order. *)
Definition selected (w : World) (pdf : bytes) (keywords : list string)
           (tables : list Table.t) : list Grid :=
  map Table.df (filter (keeps w pdf keywords) tables).

(** The cleanup the specification asks for: when either operation is over,
    the temporary file it created is gone. *)
Definition temp_file_deleted_on_exit : Prop :=
  forall (w : World) (content : bytes) (keywords : list string) (s : Sys),
    disk_lookup
      (disk (state_after (extract_key_tables_from_pdf w content keywords) s))
      (tmp_name (tmp_seq s) ".pdf") = None
    /\ disk_lookup
         (disk (state_after (load_pdf_and_create_index w content) s))
         (tmp_name (tmp_seq s) "pdf") = None.

(** The label the specification gives the table at position [n] (from 0):
    the fixed label for the first three, the ordinal one after that. *)
Definition spec_label (n : nat) : string :=
  if (n <? 3)%nat then nth n table_labels "" else "Table " ++ str_of_nat (n + 1).

(** Every retained table is shown under its label. *)
Definition every_retained_table_shown : Prop :=
  forall (dataframes : list Grid) (s : Sys) (n : nat) (g : Grid),
    nth_error dataframes n = Some g ->
    exists before after,
      screen (state_after (show_tables dataframes) s)
      = (before ++ [St_subheader (spec_label n); St_dataframe g] ++ after)%list.

(** What drawing one labeled table adds to the page. *)
Definition labeled (lg : string * Grid) : list Event :=
  [St_subheader (fst lg); St_dataframe (snd lg)].

(** The organization names among the entities, as [extract_company_name]
    returns them. *)
Definition org_names (ents : list (string * string)) : list string :=
  map fst (filter (fun ent => String.eqb (snd ent) "ORG") ents).

(** The filter [main] applies to a name: the lower-cased name has a match of
    [company_pattern]. *)
Definition keeps_company (name : string) : bool :=
  search company_pattern (lower name).

(** The name [main] goes on to title-case and write. *)
Definition first_company (company_names : list string) : string :=
  hd "Unknown" (filter keeps_company company_names).

(** The Entity Filter in the words of the specification: the marker is a
    literal substring of the lower-cased name. *)
Definition literal_markers : list string :=
  ["company"; "inc."; "ltd"; "enterprise"; "corporation"].
Definition keeps_literal (name : string) : bool :=
  existsb (fun marker => contains marker (lower name)) literal_markers.
Definition first_company_by_markers (company_names : list string) : string :=
  hd "Unknown" (filter keeps_literal company_names).

(** The first line of the "Company Name & Period Ending" block. *)
Definition company_line (company_names : list string) : string :=
  match company_names with
  | [] => "No company names found in the document."
  | _ :: _ => " - " ++ title (first_company company_names)
  end.

(** The second line of the block, for the first tuple of [findall]. *)
Definition period_line (tup : list string) : string :=
  if truthy (title (nth 0 tup ""))
  then " - " ++ title (nth 0 tup "")
  else "No specific dates found in the document.".

Definition metadata_block : Container := Expander "Company Name & Period Ending".

(** The period statement of Scenario B. *)
Definition period_phrase : string :=
  "for the quarterly period ended: March 31, 2024".

Definition tables_block : Container := Expander "Key Financial Statements".
Definition qa_block : Container :=
  Expander "Q & A with uploaded Financial Statement".

(** The isolation the specification asks for: once the text is extracted,
    the tables block is drawn to its end, and the QA block is drawn to its
    end or its failure is reported by the QA handler, whatever happens in
    the other branches. *)
Definition every_branch_completes : Prop :=
  forall (w : World) (content : bytes) (doc : Document) (s : Sys),
    uploaded_file w = Some content ->
    fitz_open w content = inr doc ->
    In (Leave tables_block) (screen (state_after (main w) s))
    /\ (In (Leave qa_block) (screen (state_after (main w) s))
        \/ exists msg,
             In (St_error ("An error occurred while executing QA Section: " ++ msg))
                (screen (state_after (main w) s))).

(** A computation that only draws: it returns, and adds the same events to
    the page from every state. *)
Definition Draws (m : M unit) : Prop :=
  exists evs, forall s, m s = (with_screen s (screen s ++ evs), Return tt).

(** The events [main] draws before it looks at the upload: the title, the
    sidebar and the uploader. *)
Definition sidebar_events : list Event :=
  [Enter Sidebar;
   St_header "Basic Information:";
   St_write "1. Form 10-K is a Annual Report & Audited Financial Statements which is filed every Fiscal Year";
   St_write "2. Form 10-Q is a Quarterly Report & Unaudited Financial Statements filed every Fiscal Quarter";
   St_write "3. Both Forms are filed by Public Co. to US SEC about their Financial Performance";
   St_write "----------------------------";
   St_header "About Model:";
   St_write "As you upload Financial Statements, model identifies Company Name, Period Ending and extracts 3 important Financials i.e.,";
   St_write "i) Earnings Statement";
   St_write "ii) Balance Sheet";
   St_write "iii) Cash Flow Statement";
   Leave Sidebar].

Definition page_top : list Event :=
  (St_title "Financial Statement Analysis of Form 10-K & 10-Q Reports"
   :: sidebar_events ++
   [St_file_uploader
      "Kindly upload PDF format of Financial Statements as shown in below example snapshot"])%list.

(** The two lines [main] draws once the text is extracted. *)
Definition key_points : list Event :=
  [St_write "========================================================================================";
   St_subheader "Key Points on Document Uploaded:"].

(** The message of the handler of the Table Locator. *)
Definition reading_error (e : Exn) : Event :=
  St_error ("An error occurred while reading key tables from PDF: " ++ str_exn e).

(** The message of the handler of the QA section. *)
Definition qa_error (e : Exn) : Event :=
  St_error ("An error occurred while executing QA Section: " ++ str_exn e).

(** The message of the outer handler of [main]. *)
Definition page_error (e : Exn) : Event :=
  St_error ("An error occurred: " ++ str_exn e).

(** A computation that draws exactly [evs], from every state, and returns. *)
Definition DrawsExactly (m : M unit) (evs : list Event) : Prop :=
  forall s, m s = (with_screen s (screen s ++ evs), Return tt).

(** Scenario B read as a statement about every text that contains the
    period statement, whatever comes before and after it. *)
Definition period_phrase_always_reported : Prop :=
  forall (pre post : string) (s : Sys),
    extract_specific_dates (pre ++ period_phrase ++ post) s
    = (s, Return "For The Quarterly Period Ended: March 31, 2024").


(** Lines 78 to 103 of [extract_key_tables_from_pdf]: what the function does
    with the path of the saved upload, once lines 74 to 76 have produced
    it.  [error] stands for [st.error], the one call of these lines that is
    outside the [try]. *)
Definition key_tables_at (w : World) (error : string -> M unit)
           (temp_file_path : string) (keywords : list string) : M (list Grid) :=
  if truthy temp_file_path then
    try_except
      (pdf <- read_file temp_file_path ;;
       tables <- call (camelot_read_pdf w pdf) ;;
       locals <-
         for_each tables (fun (locals : option Document * list Grid) table =>
           let keyword_tables := snd locals in
           let page := Table.page table in
           let table_bbox := Table._bbox table in
           let table_df := Table.df table in
           pdf' <- read_file temp_file_path ;;
           doc <- call (fitz_open w pdf') ;;
           pg <- call (doc_getitem doc (page - 1)) ;;
           let page_text := get_text_clip pg table_bbox in
           if contains_keywords page_text keywords
           then ret (Some doc, (keyword_tables ++ [table_df])%list)
           else ret (Some doc, keyword_tables))
         (None, []) ;;
       match fst locals with
       | None => raise (UnboundLocalError "doc")
       | Some _ => ret tt
       end ;;
       ret (snd locals))
      (fun e =>
         error ("An error occurred while reading key tables from PDF: "
                  ++ str_exn e) ;;
         ret [])
  else
    (error "Failed to save the uploaded PDF file." ;;
     ret []).

(** The line the tables block writes for an empty result. *)
Definition no_tables_line : Event :=
  St_write "No tables matching the specified keywords extracted.".

(** The exception raised inside the [try] of the QA section, if any: that of
    the first call that fails, in the order of the source (the loader, the
    splitter, the index creator, the model, the chain, and the chain on the
    question when one is typed). *)
Definition qa_failure (w : World) (content : bytes) : option Exn :=
  match loader_load_and_split w content with
  | inl e => Some e
  | inr pages =>
      match split_documents w (String "010" "") 2000 200 pages with
      | inl e => Some e
      | inr texts =>
          match from_documents w texts with
          | inl e => Some e
          | inr vectorstore_index =>
              match OpenAI w with
              | inl e => Some e
              | inr _ =>
                  match RetrievalQA_from_chain_type w vectorstore_index with
                  | inl e => Some e
                  | inr qa =>
                      if truthy (question w) then
                        match qa (question w) with
                        | inl e => Some e
                        | inr _ => None
                        end
                      else None
                  end
              end
          end
      end
  end.


(** Lines 118 to 128 of [main]: the sidebar. *)
Definition sidebar_of_main : M unit :=
  within Sidebar
    (st_header "Basic Information:" ;;
     st_write "1. Form 10-K is a Annual Report & Audited Financial Statements which is filed every Fiscal Year" ;;
     st_write "2. Form 10-Q is a Quarterly Report & Unaudited Financial Statements filed every Fiscal Quarter" ;;
     st_write "3. Both Forms are filed by Public Co. to US SEC about their Financial Performance" ;;
     st_write "----------------------------" ;;
     st_header "About Model:" ;;
     st_write "As you upload Financial Statements, model identifies Company Name, Period Ending and extracts 3 important Financials i.e.," ;;
     st_write "i) Earnings Statement" ;;
     st_write "ii) Balance Sheet" ;;
     st_write "iii) Cash Flow Statement").

(** Lines 134 to 198 of [main]: the body of its [try]. *)
Definition analysis (w : World) (file_content : bytes) : M unit :=
  text <- extract_text_from_pdf w file_content ;;
  st_write "========================================================================================" ;;
  st_subheader "Key Points on Document Uploaded:" ;;
  company_name_and_period_ending w text ;;
  key_financial_statements w file_content ;;
  qa_section w file_content.

(** [main] around its [try]: [title], [sidebar], [uploader], [error] and
    [image] stand for the Streamlit calls of lines 116 to 130, 201 and 204,
    which are outside the [try], and [body] for what is inside it. *)
Definition main_around
           (title : string -> M unit) (sidebar : M unit)
           (uploader : string -> M (option bytes)) (body : bytes -> M unit)
           (error : string -> M unit) (image : string -> string -> M unit)
  : M unit :=
  title "Financial Statement Analysis of Form 10-K & 10-Q Reports" ;;
  sidebar ;;
  pdf_file <-
    uploader "Kindly upload PDF format of Financial Statements as shown in below example snapshot" ;;
  match pdf_file with
  | Some file_content =>
      try_except
        (body file_content)
        (fun e => error ("An error occurred: " ++ str_exn e))
  | None =>
      image "Financial_Statement_Format.PNG" "Example Document"
  end.


(* ===================================================================== *)
(** ** Strings: containment *)
(* ===================================================================== *)

Section StringFacts.

Lemma prefix_app (p s : string) :
  prefix p s = true <-> exists post, s = p ++ post.
Proof.
  revert s; induction p as [|a p IH]; intros s.
  - split; [intros _; now exists s | now destruct s].
  - destruct s as [|b s]; simpl.
    + split; [discriminate | intros [post H]; discriminate].
    + destruct (ascii_dec a b) as [->|Hab].
      * rewrite IH. split; intros [post H]; exists post.
        -- now rewrite H.
        -- now injection H.
      * split; [discriminate|].
        intros [post H]. injection H as H1 _. congruence.
Qed.

Lemma contains_cons (needle : string) (a : ascii) (hay : string) :
  contains needle (String a hay)
  = prefix needle (String a hay) || contains needle hay.
Proof. reflexivity. Qed.

Lemma contains_spec (needle hay : string) :
  contains needle hay = true <-> exists pre post, hay = pre ++ needle ++ post.
Proof.
  induction hay as [|a hay IH]; [change (contains needle "") with (prefix needle "" || false) | rewrite contains_cons].
  - rewrite orb_false_r, prefix_app. split.
    + intros [post H]. now exists "", post.
    + intros [pre [post H]]. destruct pre; [now exists post | discriminate].
  - rewrite orb_true_iff, prefix_app, IH. split.
    + intros [[post H]|[pre [post H]]].
      * now exists "", post.
      * exists (String a pre), post. simpl. now rewrite H.
    + intros [pre [post H]]. destruct pre as [|b pre]; simpl in H.
      * left. now exists post.
      * right. injection H as _ H. now exists pre, post.
Qed.

Lemma lower_app (a b : string) : lower (a ++ b) = lower a ++ lower b.
Proof. induction a as [|c a IH]; simpl; [reflexivity | now rewrite IH]. Qed.

Lemma string_app_assoc (a b c : string) : (a ++ b) ++ c = a ++ b ++ c.
Proof. induction a as [|x a IH]; simpl; [reflexivity | now rewrite IH]. Qed.

Lemma string_app_nil_r (a : string) : a ++ "" = a.
Proof. induction a as [|x a IH]; simpl; [reflexivity | now rewrite IH]. Qed.

Lemma string_length_app (a b : string) :
  String.length (a ++ b) = String.length a + String.length b.
Proof. induction a as [|x a IH]; simpl; [reflexivity | now rewrite IH]. Qed.

Lemma truthy_tmp_name (n : nat) (suffix : string) :
  truthy (tmp_name n suffix) = true.
Proof. reflexivity. Qed.

End StringFacts.

Lemma contains_keywords_spec (text : string) (keywords : list string) :
  contains_keywords text keywords = true <-> has_keyword text keywords.
Proof.
  unfold contains_keywords, has_keyword. rewrite existsb_exists.
  split; intros [k [Hin H]]; exists k; split; trivial; now apply contains_spec.
Qed.

(* ===================================================================== *)
(** ** Effects of the helpers *)
(* ===================================================================== *)

Section Effects.
Variable w : World.

Lemma save_upload (suffix : string) (content : bytes) (s : Sys) :
  NamedTemporaryFile false suffix
    (fun f => file_write f content ;; ret f) s
  = (saved s suffix content, Return (tmp_name (tmp_seq s) suffix)).
Proof.
  unfold NamedTemporaryFile, saved, file_write, bind, ret, disk_remove. simpl.
  now rewrite String.eqb_refl.
Qed.

Lemma read_file_found (path : string) (c : bytes) (s : Sys) :
  disk_lookup (disk s) path = Some c -> read_file path s = (s, Return c).
Proof. unfold read_file. now intros ->. Qed.

Lemma saved_lookup (s : Sys) (suffix : string) (content : bytes) :
  disk_lookup (disk (saved s suffix content)) (tmp_name (tmp_seq s) suffix)
  = Some content.
Proof. unfold saved. simpl. now rewrite String.eqb_refl. Qed.

Lemma for_each_text (doc : Document) (acc : string) (s : Sys) :
  for_each doc (fun text page => ret (text ++ get_text page)) acc s
  = (s, Return (acc ++ join (map get_text doc))).
Proof.
  revert acc; induction doc as [|p doc IH]; intros acc; simpl.
  - unfold ret. now rewrite string_app_nil_r.
  - unfold bind, ret at 1. rewrite IH. now rewrite string_app_assoc.
Qed.

Lemma extract_text_from_pdf_ok (content : bytes) (doc : Document) (s : Sys) :
  fitz_open w content = inr doc ->
  extract_text_from_pdf w content s = (s, Return (join (map get_text doc))).
Proof.
  intros H. unfold extract_text_from_pdf, bind, call. rewrite H.
  unfold ret at 1. now rewrite for_each_text.
Qed.

Lemma join_app (l1 l2 : list string) : join (l1 ++ l2) = join l1 ++ join l2.
Proof.
  induction l1 as [|x l1 IH]; simpl; [reflexivity|].
  now rewrite IH, string_app_assoc.
Qed.

Lemma join_all_empty (l : list string) :
  Forall (fun x => x = "") l -> join l = "".
Proof. induction 1 as [|x l Hx _ IH]; simpl; [reflexivity | now rewrite Hx, IH]. Qed.

End Effects.

(** C7.  When the document opens, the Text Extractor returns the page texts
    concatenated in page order, without touching the state; the output of a
    document that continues another one with further pages is at least as
    long; and a document without pages, or with empty pages only, gives the
    empty string. *)
Theorem extract_text_is_page_concatenation
    (w : World) (content : bytes) (doc : Document) (s : Sys)
    (Hopen : fitz_open w content = inr doc) :
  extract_text_from_pdf w content s = (s, Return (join (map get_text doc)))
  /\ (forall content' more,
        fitz_open w content' = inr (doc ++ more)%list ->
        exists text text',
          outcome (extract_text_from_pdf w content) s = Return text /\
          outcome (extract_text_from_pdf w content') s = Return text' /\
          String.length text <= String.length text')
  /\ (Forall (fun p => get_text p = "") doc ->
      outcome (extract_text_from_pdf w content) s = Return "").
Proof.
  pose proof (extract_text_from_pdf_ok w content doc s Hopen) as E.
  split; [exact E|]. split.
  - intros content' more H'.
    exists (join (map get_text doc)), (join (map get_text (doc ++ more))).
    unfold outcome. rewrite E, (extract_text_from_pdf_ok w content' _ s H').
    repeat split. rewrite map_app, join_app, string_length_app. lia.
  - intros Hall. unfold outcome. rewrite E. simpl. f_equal.
    apply join_all_empty. now apply Forall_map.
Qed.

Lemma extract_text_is_page_concatenation_witness :
  fitz_open Sample.world Sample.pdf = inr Sample.doc /\
  extract_text_from_pdf Sample.world Sample.pdf Sample.s0
  = (Sample.s0,
     Return "Hewlett Packard Enterprise Company  Form 10-Q  For the quarterly period ended: April 30, 2024 Total Current Assets 19,553 ").
Proof.
  split; [reflexivity|].
  exact (proj1 (extract_text_is_page_concatenation
                  Sample.world Sample.pdf Sample.doc Sample.s0 eq_refl)).
Defined.

(* ===================================================================== *)
(** ** The Table Locator *)
(* ===================================================================== *)

Section MonadSteps.
Context {A B : Type}.

Lemma bind_return (m : M A) (f : A -> M B) (s s' : Sys) (a : A) :
  m s = (s', Return a) -> bind m f s = f a s'.
Proof. unfold bind. now intros ->. Qed.

Lemma bind_raise (m : M A) (f : A -> M B) (s s' : Sys) (e : Exn) :
  m s = (s', Raise e) -> bind m f s = (s', Raise e).
Proof. unfold bind. now intros ->. Qed.

Lemma try_return (body : M A) (h : Exn -> M A) (s s' : Sys) (a : A) :
  body s = (s', Return a) -> try_except body h s = (s', Return a).
Proof. unfold try_except. now intros ->. Qed.

Lemma try_raise (body : M A) (h : Exn -> M A) (s s' : Sys) (e : Exn) :
  body s = (s', Raise e) -> try_except body h s = h e s'.
Proof. unfold try_except. now intros ->. Qed.
End MonadSteps.

Section TableLocator.
Variable w : World.
Variable content : bytes.
(** One turn of the loop over the detected tables. *)
Let turn (keywords : list string) (path : string) :=
  fun (locals : option Document * list Grid) (table : Table.t) =>
    (pdf' <- read_file path ;;
     doc <- call (fitz_open w pdf') ;;
     pg <- call (doc_getitem doc (Table.page table - 1)) ;;
     if contains_keywords (get_text_clip pg (Table._bbox table)) keywords
     then ret (Some doc, (snd locals ++ [Table.df table])%list)
     else ret (Some doc, snd locals)).

Lemma loop_selects (keywords : list string) (path : string) (s : Sys)
      (tables : list Table.t) :
  disk_lookup (disk s) path = Some content ->
  (forall t, In t tables -> neighborhood w content t <> None) ->
  forall locals,
  exists d,
    for_each tables (turn keywords path) locals s
    = (s, Return (d, (snd locals ++ selected w content keywords tables)%list))
    /\ (tables = [] -> d = fst locals)
    /\ (tables <> [] -> d <> None).
Proof.
  intros Hdisk. induction tables as [|t tables IH]; intros Hn locals.
  - exists (fst locals). simpl. unfold ret, selected. simpl.
    rewrite app_nil_r. destruct locals. now repeat split.
  - assert (Ht : neighborhood w content t <> None) by (apply Hn; now left).
    assert (Hrest : forall t', In t' tables -> neighborhood w content t' <> None)
      by (intros t' Hin; apply Hn; now right).
    unfold selected. simpl filter. unfold keeps at 1.
    unfold neighborhood in Ht |- *.
    destruct (fitz_open w content) as [e|doc] eqn:Hopen; [congruence|].
    destruct (doc_getitem doc (Table.page t - 1)) as [e|pg] eqn:Hpg; [congruence|].
    simpl for_each.
    assert (Hturn :
      turn keywords path locals t s
      = (s, Return (Some doc,
                    if contains_keywords (get_text_clip pg (Table._bbox t)) keywords
                    then (snd locals ++ [Table.df t])%list else snd locals))).
    { unfold turn. rewrite (bind_return _ _ _ _ _ (read_file_found _ _ _ Hdisk)).
      rewrite Hopen. unfold call at 1, bind at 1, ret at 1.
      rewrite Hpg. unfold call, bind, ret.
      now destruct (contains_keywords _ keywords). }
    rewrite (bind_return _ _ _ _ _ Hturn).
    destruct (IH Hrest
                (Some doc,
                 if contains_keywords (get_text_clip pg (Table._bbox t)) keywords
                 then (snd locals ++ [Table.df t])%list else snd locals))
      as [d [Hrun [_ Hd]]].
    exists d. split; [|split; [discriminate|]].
    + rewrite Hrun. unfold selected. simpl snd.
      destruct (contains_keywords _ keywords); simpl.
      * now rewrite <- app_assoc.
      * reflexivity.
    + intros _. destruct tables as [|t' tables'].
      * simpl in Hrun. unfold ret in Hrun. injection Hrun as Hd' _.
        simpl in Hd'. now subst d.
      * apply Hd. discriminate.
Qed.

(** Without keywords no turn of the loop adds a grid. *)
Lemma turn_without_keywords (path : string) (s : Sys) locals (t : Table.t) :
  (exists e, turn [] path locals t s = (s, Raise e))
  \/ (exists doc, turn [] path locals t s = (s, Return (Some doc, snd locals))).
Proof.
  unfold turn, bind, read_file, call, raise, ret.
  destruct (disk_lookup (disk s) path) as [pdf'|]; [|left; eauto].
  destruct (fitz_open w pdf') as [e|doc]; [left; eauto|].
  destruct (doc_getitem doc (Table.page t - 1)) as [e|pg]; [left; eauto|].
  right. exists doc. reflexivity.
Qed.

Lemma loop_without_keywords (path : string) (s : Sys) (tables : list Table.t) :
  forall locals,
    (exists e, for_each tables (turn [] path) locals s = (s, Raise e))
    \/ (exists d, for_each tables (turn [] path) locals s
                  = (s, Return (d, snd locals))).
Proof.
  induction tables as [|t tables IH]; intros locals.
  - right. exists (fst locals). simpl. unfold ret. now destruct locals.
  - simpl for_each.
    destruct (turn_without_keywords path s locals t) as [[e He]|[doc Hdoc]].
    + left. exists e. now rewrite (bind_raise _ _ _ _ _ He).
    + rewrite (bind_return _ _ _ _ _ Hdoc).
      exact (IH (Some doc, snd locals)).
Qed.

End TableLocator.

(** Calls that leave the state as it is. *)
Section StateSame.
Context {A B : Type}.

Lemma ret_state (a : A) (s : Sys) : fst (ret a s) = s.
Proof. reflexivity. Qed.

Lemma raise_state (e : Exn) (s : Sys) : fst (@raise A e s) = s.
Proof. reflexivity. Qed.

Lemma call_state (r : Exn + A) (s : Sys) : fst (call r s) = s.
Proof. now destruct r. Qed.

Lemma bind_state (m : M A) (f : A -> M B) :
  (forall s, fst (m s) = s) -> (forall a s, fst (f a s) = s) ->
  forall s, fst (bind m f s) = s.
Proof.
  intros Hm Hf s. unfold bind. specialize (Hm s).
  destruct (m s) as [s' [a|e]]; simpl in Hm; subst s'; [apply Hf | reflexivity].
Qed.

End StateSame.

Lemma for_each_state {A B : Type} (body : B -> A -> M B) :
  (forall acc x s, fst (body acc x s) = s) ->
  forall l acc s, fst (for_each l body acc s) = s.
Proof.
  intros Hbody l. induction l as [|x l IH]; intros acc s; simpl.
  - reflexivity.
  - apply bind_state; [apply Hbody | intros; apply IH].
Qed.

Lemma read_file_state (path : string) (s : Sys) : fst (read_file path s) = s.
Proof. unfold read_file. now destruct (disk_lookup (disk s) path). Qed.

Ltac state_same :=
  repeat first
    [ apply ret_state | apply raise_state | apply call_state | apply read_file_state
    | apply bind_state; intros; cbv beta zeta
    | apply for_each_state; intros; cbv beta zeta
    | match goal with
      | |- fst ((if ?b then _ else _) _) = _ => destruct b
      | |- fst ((match ?x with _ => _ end) _) = _ => destruct x
      end ].

Section TableLocatorRuns.
Variable w : World.
Variable content : bytes.
Variable keywords : list string.
Variable s : Sys.

(** The function always returns; the state it ends in is the start state
    with the upload saved, and at most one error message drawn. *)
Lemma extract_key_tables_runs :
  exists out,
    outcome (extract_key_tables_from_pdf w content keywords) s = Return out
    /\ (state_after (extract_key_tables_from_pdf w content keywords) s
        = saved s ".pdf" content
        \/ exists msg,
             out = [] /\
             state_after (extract_key_tables_from_pdf w content keywords) s
             = with_screen (saved s ".pdf" content)
                 (screen s ++ [St_error msg])).
Proof.
  unfold outcome, state_after, extract_key_tables_from_pdf.
  rewrite (bind_return _ _ _ _ _ (save_upload ".pdf" content s)).
  cbv beta. rewrite truthy_tmp_name. cbv iota.
  match goal with
  | |- context [try_except ?b ?h ?s1] =>
      assert (Hsame : fst (b s1) = s1) by state_same;
      unfold try_except; destruct (b s1) as [s2 [out|e]]
  end; simpl in Hsame; subst s2.
  - exists out. split; [reflexivity | now left].
  - exists []. split; [reflexivity|]. right.
    eexists. split; [reflexivity|]. reflexivity.
Qed.

End TableLocatorRuns.

Lemma selected_iff (w : World) (content : bytes) (keywords : list string)
      (tables : list Table.t) (g : Grid) :
  In g (selected w content keywords tables) <->
  exists t text, In t tables /\ Table.df t = g /\
                 neighborhood w content t = Some text /\
                 has_keyword text keywords.
Proof.
  unfold selected. rewrite in_map_iff. split.
  - intros [t [Hg Hin]]. apply filter_In in Hin as [Hin Hk].
    unfold keeps in Hk.
    destruct (neighborhood w content t) as [text|] eqn:Hn; [|discriminate].
    exists t, text. repeat split; trivial. now apply contains_keywords_spec.
  - intros [t [text [Hin [Hg [Hn Hk]]]]]. exists t. split; trivial.
    apply filter_In. split; trivial. unfold keeps. rewrite Hn.
    now apply contains_keywords_spec.
Qed.

(** C1.  When table detection and the reading of every table's neighborhood
    succeed, the Table Locator returns exactly the grids of the tables whose
    neighborhood has a keyword (case-insensitively, as a substring), in
    detection order: a grid is in the output if and only if it is the grid
    of such a table.  Without keywords the result is the empty list,
    whatever the libraries do. *)
Theorem table_kept_iff_neighborhood_has_keyword
    (w : World) (content : bytes) (s : Sys) :
  (forall keywords tables,
     camelot_read_pdf w content = inr tables ->
     (forall t, In t tables -> neighborhood w content t <> None) ->
     outcome (extract_key_tables_from_pdf w content keywords) s
     = Return (selected w content keywords tables)
     /\ forall g,
          In g (selected w content keywords tables) <->
          exists t text, In t tables /\ Table.df t = g /\
                         neighborhood w content t = Some text /\
                         has_keyword text keywords)
  /\ outcome (extract_key_tables_from_pdf w content []) s = Return [].
Proof.
  split.
  - intros keywords tables Hcam Hn. split; [|apply selected_iff].
    unfold outcome, extract_key_tables_from_pdf.
    rewrite (bind_return _ _ _ _ _ (save_upload ".pdf" content s)).
    cbv beta. rewrite truthy_tmp_name. cbv iota.
    unfold try_except.
    rewrite (bind_return _ _ _ _ _
               (read_file_found _ _ _ (saved_lookup s ".pdf" content))).
    rewrite Hcam.
    rewrite (bind_return _ _ (saved s ".pdf" content) _ tables eq_refl).
    destruct (loop_selects w content keywords (tmp_name (tmp_seq s) ".pdf")
                (saved s ".pdf" content) tables
                (saved_lookup s ".pdf" content) Hn (None, []))
      as [d [Hrun [Hnil Hcons]]].
    cbv zeta.
    rewrite (bind_return _ _ _ _ _ Hrun). simpl fst. simpl snd.
    destruct tables as [|t tables].
    + rewrite (Hnil eq_refl). reflexivity.
    + destruct d as [doc|]; [reflexivity|]. now destruct Hcons.
  - unfold outcome, extract_key_tables_from_pdf.
    rewrite (bind_return _ _ _ _ _ (save_upload ".pdf" content s)).
    cbv beta. rewrite truthy_tmp_name. cbv iota.
    unfold try_except.
    rewrite (bind_return _ _ _ _ _
               (read_file_found _ _ _ (saved_lookup s ".pdf" content))).
    destruct (camelot_read_pdf w content) as [e|tables]; [reflexivity|].
    rewrite (bind_return _ _ (saved s ".pdf" content) _ tables eq_refl).
    cbv zeta.
    destruct (loop_without_keywords w (tmp_name (tmp_seq s) ".pdf")
                (saved s ".pdf" content) tables (None, []))
      as [[e He]|[d Hd]].
    + rewrite (bind_raise _ _ _ _ _ He). reflexivity.
    + rewrite (bind_return _ _ _ _ _ Hd). simpl fst. simpl snd.
      now destruct d.
Qed.

Lemma table_kept_iff_neighborhood_has_keyword_witness :
  camelot_read_pdf Sample.world Sample.pdf = inr Sample.tables
  /\ (forall t, In t Sample.tables ->
                neighborhood Sample.world Sample.pdf t <> None)
  /\ outcome (extract_key_tables_from_pdf Sample.world Sample.pdf keywords_of_main)
       Sample.s0
     = Return [Sample.earnings; Sample.balance].
Proof.
  assert (H : forall t, In t Sample.tables ->
                        neighborhood Sample.world Sample.pdf t <> None).
  { intros t [<-|[<-|[<-|[]]]]; discriminate. }
  split; [reflexivity|]. split; [exact H|].
  exact (proj1 (proj1 (table_kept_iff_neighborhood_has_keyword
                         Sample.world Sample.pdf Sample.s0)
                  keywords_of_main Sample.tables eq_refl H)).
Defined.

(** C9.  When table detection finds no table, the loop never binds [doc], so
    closing it raises the unbound-variable error; the handler draws the
    error message and the function returns the empty list. *)
Theorem no_tables_reports_unbound_doc
    (w : World) (content : bytes) (keywords : list string) (s : Sys)
    (Hnone : camelot_read_pdf w content = inr []) :
  extract_key_tables_from_pdf w content keywords s
  = (with_screen (saved s ".pdf" content)
       (screen s ++
        [St_error
           "An error occurred while reading key tables from PDF: cannot access local variable 'doc' where it is not associated with a value"]),
     Return []).
Proof.
  unfold extract_key_tables_from_pdf.
  rewrite (bind_return _ _ _ _ _ (save_upload ".pdf" content s)).
  cbv beta. rewrite truthy_tmp_name. cbv iota.
  unfold try_except.
  rewrite (bind_return _ _ _ _ _
             (read_file_found _ _ _ (saved_lookup s ".pdf" content))).
  rewrite Hnone. reflexivity.
Qed.

Lemma no_tables_reports_unbound_doc_witness :
  camelot_read_pdf Sample.world_without_tables Sample.pdf = inr []
  /\ extract_key_tables_from_pdf Sample.world_without_tables Sample.pdf
       keywords_of_main Sample.s0
     = (mkSys [("/tmp/tmp0.pdf", Sample.pdf)] 1
          [St_error
             "An error occurred while reading key tables from PDF: cannot access local variable 'doc' where it is not associated with a value"],
        Return []).
Proof.
  split; [reflexivity|].
  exact (no_tables_reports_unbound_doc Sample.world_without_tables Sample.pdf
           keywords_of_main Sample.s0 eq_refl).
Defined.

(** X1.  When table detection raises, the Table Locator fails soft: its
    handler draws the error and the result is the empty list; the saved
    upload stays on disk. *)
Lemma detection_failure_is_soft
      (w : World) (content : bytes) (keywords : list string) (s : Sys) (e : Exn) :
  camelot_read_pdf w content = inl e ->
  extract_key_tables_from_pdf w content keywords s
  = (with_screen (saved s ".pdf" content)
       (screen s ++
        [St_error ("An error occurred while reading key tables from PDF: "
                     ++ str_exn e)]),
     Return []).
Proof.
  intros Hraise. unfold extract_key_tables_from_pdf.
  rewrite (bind_return _ _ _ _ _ (save_upload ".pdf" content s)).
  cbv beta. rewrite truthy_tmp_name. cbv iota.
  unfold try_except.
  rewrite (bind_return _ _ _ _ _
             (read_file_found _ _ _ (saved_lookup s ".pdf" content))).
  rewrite Hraise. reflexivity.
Qed.

(* ===================================================================== *)
(** ** Temporary files *)
(* ===================================================================== *)

Lemma load_pdf_and_create_index_state (w : World) (content : bytes) (s : Sys) :
  state_after (load_pdf_and_create_index w content) s = saved s "pdf" content.
Proof.
  unfold state_after, load_pdf_and_create_index.
  rewrite (bind_return _ _ _ _ _ (save_upload "pdf" content s)).
  cbv beta. state_same.
Qed.

(** C8, as the specification states it, fails on the sample filing: the
    file written by the Table Locator is still on disk when it returns. *)
Lemma temp_file_not_deleted : ~ temp_file_deleted_on_exit.
Proof.
  intros H.
  destruct (H Sample.world Sample.pdf keywords_of_main Sample.s0) as [H1 _].
  vm_compute in H1. discriminate H1.
Qed.

(** C8, amended.  On every exit path of the Table Locator and of the
    Retrieval Index Builder the temporary file is still on disk, under the
    name it was created with, and holds the uploaded bytes: it is created
    with [delete=False] and nothing removes it. *)
Theorem temp_file_left_on_disk
    (w : World) (content : bytes) (keywords : list string) (s : Sys) :
  disk_lookup
    (disk (state_after (extract_key_tables_from_pdf w content keywords) s))
    (tmp_name (tmp_seq s) ".pdf") = Some content
  /\ disk_lookup
       (disk (state_after (load_pdf_and_create_index w content) s))
       (tmp_name (tmp_seq s) "pdf") = Some content.
Proof.
  split.
  - destruct (extract_key_tables_runs w content keywords s)
      as [out [_ [Hs|[msg [_ Hs]]]]]; rewrite Hs.
    + apply saved_lookup.
    + unfold with_screen. simpl disk. apply saved_lookup.
  - rewrite load_pdf_and_create_index_state. apply saved_lookup.
Qed.

(* ===================================================================== *)
(** ** Labels of the retained tables *)
(* ===================================================================== *)

(** C4, as the specification states it, fails for four retained tables:
    the fourth is not drawn, and no label "Table 4" appears. *)
Lemma fourth_table_not_shown : ~ every_retained_table_shown.
Proof.
  intros H.
  destruct (H [Sample.earnings; Sample.balance; Sample.notes; [["Other"]]]
              Sample.s0 3 [["Other"]] eq_refl) as [before [after E]].
  assert (Hin : In (St_subheader (spec_label 3))
                   (screen (state_after
                      (show_tables
                         [Sample.earnings; Sample.balance; Sample.notes; [["Other"]]])
                      Sample.s0))).
  { rewrite E. apply in_or_app. right. now left. }
  vm_compute in Hin.
  repeat (destruct Hin as [Hin|Hin]; [discriminate Hin|]).
  exact Hin.
Qed.

(** C4, amended.  The first three retained grids, in detection order, are
    drawn under "Consolidated Statements of Earnings", "Consolidated Balance
    Sheets" and "Consolidated Statements of Cash Flows" respectively, and
    that is all that is drawn: a retained table beyond the third is not
    shown and no ordinal label is produced.  Without any retained grid the
    page says that no table matched. *)
Theorem first_three_tables_labeled (dataframes : list Grid) (s : Sys) :
  show_tables dataframes s
  = (with_screen s
       (screen s ++
        match dataframes with
        | [] => [St_write "No tables matching the specified keywords extracted."]
        | _ :: _ => flat_map labeled (combine table_labels dataframes)
        end),
     Return tt).
Proof.
  destruct dataframes as [|g1 [|g2 [|g3 rest]]];
    unfold show_tables, with_screen;
    repeat (unfold st_write, st_subheader, st_dataframe, emit, bind, ret; simpl);
    repeat rewrite <- app_assoc; reflexivity.
Qed.

(* ===================================================================== *)
(** ** The matcher *)
(* ===================================================================== *)

Section MatcherFacts.
Context {T : Type}.

(** A repetition that succeeds has called the rest of the pattern. *)
Lemma rep_inv (c : cls) (s : string) :
  forall lo hi pos (k : nat -> string -> option T) x,
    rep c lo hi pos s k = Some x ->
    exists pos' s', k pos' s' = Some x.
Proof.
  induction s as [|a s IH]; intros lo hi pos k x H; simpl in H.
  - destruct (may_take hi), lo; try discriminate; eauto.
  - destruct (may_take hi).
    + destruct (cls_match c a).
      * destruct (rep c (pred lo) (option_map pred hi) (S pos) s k) eqn:E.
        -- injection H as <-. eapply IH; eauto.
        -- destruct lo; try discriminate; eauto.
      * destruct lo; try discriminate; eauto.
    + destruct lo; try discriminate; eauto.
Qed.

(** A match that succeeds has called the rest of the pattern, with marks
    that differ from the initial ones only at the groups of the pattern. *)
Lemma rmatch_frame (r : regex) :
  forall pos s g (k : nat -> string -> marks -> option T) x,
    rmatch r pos s g k = Some x ->
    exists pos' s' g',
      k pos' s' g' = Some x /\
      forall n, mentions n r = false -> g' n = g n.
Proof.
  induction r as [|a|c|c lo hi|r1 IH1 r2 IH2|r1 IH1 r2 IH2|m r IH];
    intros pos s g k x H; simpl in H.
  - eauto.
  - destruct s as [|b s]; [discriminate|].
    destruct (Ascii.eqb b a); [eauto | discriminate].
  - destruct s as [|b s]; [discriminate|].
    destruct (cls_match c b); [eauto | discriminate].
  - apply rep_inv in H as [pos' [s' H]]. eauto.
  - apply IH1 in H as [pos1 [s1 [g1 [H F1]]]].
    apply IH2 in H as [pos2 [s2 [g2 [H F2]]]].
    exists pos2, s2, g2. split; [exact H|].
    intros n Hn. simpl in Hn. apply orb_false_iff in Hn as [Hn1 Hn2].
    now rewrite F2, F1.
  - destruct (rmatch r1 pos s g k) eqn:E.
    + injection H as <-. apply IH1 in E as [pos' [s' [g' [E F]]]].
      exists pos', s', g'. split; [exact E|].
      intros n Hn. simpl in Hn. apply orb_false_iff in Hn as [Hn1 _]. auto.
    + apply IH2 in H as [pos' [s' [g' [H F]]]].
      exists pos', s', g'. split; [exact H|].
      intros n Hn. simpl in Hn. apply orb_false_iff in Hn as [_ Hn2]. auto.
  - apply IH in H as [pos' [s' [g' [H F]]]].
    exists pos', s', (set_mark m (pos, pos') g'). split; [exact H|].
    intros n Hn. simpl in Hn. apply orb_false_iff in Hn as [Hnm Hn].
    unfold set_mark. rewrite Hnm. auto.
Qed.
End MatcherFacts.

Lemma rmatch_alt {T : Type} (r1 r2 : regex) (pos : nat) (s : string) (g : marks)
      (k : nat -> string -> marks -> option T) :
  rmatch (Alt r1 r2) pos s g k
  = match rmatch r1 pos s g k with
    | Some x => Some x
    | None => rmatch r2 pos s g k
    end.
Proof. reflexivity. Qed.

(** A match of [Grp m r] sets the mark of [m] and leaves the marks of the
    groups outside [r] as they were. *)
Lemma match_group (m : nat) (r : regex) (s : string) (e : nat) (g : marks) :
  rmatch (Grp m r) 0 s no_marks (fun pos _ g => Some (pos, g)) = Some (e, g) ->
  g m <> None /\ forall n, Nat.eqb n m = false -> mentions n r = false -> g n = None.
Proof.
  intros H. simpl in H.
  apply rmatch_frame in H as [pos' [s' [g' [H F]]]].
  injection H as <- <-. split.
  - unfold set_mark. now rewrite Nat.eqb_refl.
  - intros n Hnm Hn. unfold set_mark. rewrite Hnm. now rewrite F.
Qed.

(** In a match of [date_pattern], group 1 and group 4 exclude each other:
    the match is either a "period ended" one or a "fiscal year ended" one. *)
Lemma date_pattern_alternatives (s : string) (e : nat) (g : marks) :
  match_here date_pattern s = Some (e, g) ->
  (g 1 <> None /\ g 4 = None) \/ (g 4 <> None /\ g 1 = None).
Proof.
  unfold match_here, date_pattern. intros H.
  rewrite rmatch_alt in H.
  match type of H with
  | match ?a with _ => _ end = _ => destruct a as [x|] eqn:E
  end.
  - injection H as ->. left.
    apply (match_group 1) in E as [H1 H]. split; [exact H1|].
    now apply H.
  - right. apply (match_group 4) in H as [H4 H]. split; [exact H4|].
    now apply H.
Qed.

(** Every tuple of [findall] comes from a match. *)
Lemma findall_from_head (r : regex) (s : string) :
  forall skip tup rest,
    findall_from r s skip = tup :: rest ->
    exists s' e g, match_here r s' = Some (e, g) /\ tup = groups_tuple r s' g.
Proof.
  induction s as [|a s IH]; intros skip tup rest H; simpl in H.
  - destruct (match_here r "") as [[e g]|] eqn:E; [|discriminate].
    injection H as <- _. eauto.
  - destruct skip as [|skip]; [|eauto].
    destruct (match_here r (String a s)) as [[e g]|] eqn:E; [|eauto].
    injection H as <- _. eauto.
Qed.

Lemma findall_before_first_match (r : regex) (rest : string) (pre : string) :
  search_start r (lower pre ++ rest) = Some (String.length pre) ->
  findall r (lower pre ++ rest) = findall r rest.
Proof.
  unfold findall. induction pre as [|a pre IH]; intros H; [reflexivity|].
  simpl in H |- *.
  destruct (match_here r (String (lower_char a) (lower pre ++ rest)));
    [discriminate|].
  apply IH.
  destruct (search_start r (lower pre ++ rest)); simpl in H; congruence.
Qed.

(* ===================================================================== *)
(** ** The Period Extractor *)
(* ===================================================================== *)

Lemma findall_tuple_width (s : string) (skip : nat) (tup : list string)
      (rest : list (list string)) :
  findall_from date_pattern s skip = tup :: rest ->
  exists g1 g2 g3 g4 g5, tup = [g1; g2; g3; g4; g5].
Proof.
  intros H. apply findall_from_head in H as [s' [e [g [_ ->]]]].
  unfold groups_tuple. simpl. eauto 6.
Qed.

(** With at least one match, the first group of the first match is
    returned, title-cased. *)
Lemma extract_specific_dates_first (text : string) (s : Sys)
      (tup : list string) (rest : list (list string)) :
  findall date_pattern (lower text) = tup :: rest ->
  extract_specific_dates text s = (s, Return (title (nth 0 tup ""))).
Proof.
  intros H. unfold extract_specific_dates. rewrite H.
  apply findall_tuple_width in H as [g1 [g2 [g3 [g4 [g5 ->]]]]].
  reflexivity.
Qed.

(** Without a match, the frame has no column [0]. *)
Lemma extract_specific_dates_no_match (text : string) (s : Sys) :
  findall date_pattern (lower text) = [] ->
  extract_specific_dates text s = (s, Raise (KeyError "0")).
Proof.
  intros H. unfold extract_specific_dates. rewrite H. reflexivity.
Qed.

Lemma findall_first (r : regex) (s : string) (e : nat) (g : marks) :
  match_here r s = Some (e, g) ->
  exists rest, findall r s = groups_tuple r s g :: rest.
Proof.
  intros H. unfold findall. destruct s; simpl; rewrite H; eauto.
Qed.

(** The match at the statement of Scenario B, whatever follows it. *)
Lemma period_phrase_match (tail : string) :
  exists rest,
    findall date_pattern (lower period_phrase ++ tail)
    = ["for the quarterly period ended: march 31, 2024"; "quarterly";
       "march 31, 2024"; ""; ""] :: rest.
Proof.
  assert (H : match match_here date_pattern (lower period_phrase ++ tail) with
              | Some (_, g) =>
                  groups_tuple date_pattern (lower period_phrase ++ tail) g
              | None => []
              end
              = ["for the quarterly period ended: march 31, 2024";
                 "quarterly"; "march 31, 2024"; ""; ""])
    by (destruct tail; vm_compute; reflexivity).
  destruct (match_here date_pattern (lower period_phrase ++ tail))
    as [[e g]|] eqn:E; [|discriminate].
  destruct (findall_first _ _ _ _ E) as [rest Hrest].
  exists rest. now rewrite Hrest, H.
Qed.

(** C5, as the specification states it, fails for a text in which an
    earlier period statement comes before the one of Scenario B: the Period
    Extractor returns the earlier statement, its first match. *)
Lemma earlier_statement_is_reported : ~ period_phrase_always_reported.
Proof.
  intros H.
  specialize (H "Compared with the results for the quarterly period ended: December 31, 2023, "
                " revenue rose." Sample.s0).
  vm_compute in H. discriminate H.
Qed.

(** C5, amended.  For a text of ASCII characters that contains the statement
    "for the quarterly period ended: March 31, 2024" and in which no match of
    the pattern begins before that statement, the Period Extractor returns
    "For The Quarterly Period Ended: March 31, 2024": the first group of the
    first match, title-cased, whatever follows the statement. *)
Theorem quarterly_period_is_title_cased (pre post : string) (s : Sys)
    (Hascii : isascii (pre ++ period_phrase ++ post) = true)
    (Hfirst : search_start date_pattern (lower (pre ++ period_phrase ++ post))
              = Some (String.length pre)) :
  extract_specific_dates (pre ++ period_phrase ++ post) s
  = (s, Return "For The Quarterly Period Ended: March 31, 2024").
Proof.
  rewrite !lower_app in Hfirst.
  apply findall_before_first_match in Hfirst.
  destruct (period_phrase_match (lower post)) as [rest Hrest].
  rewrite Hrest in Hfirst. rewrite <- !lower_app in Hfirst.
  now rewrite (extract_specific_dates_first _ s _ _ Hfirst).
Qed.

Lemma quarterly_period_is_title_cased_witness :
  isascii ("FORM 10-Q " ++ period_phrase ++ " Commission file number 001-37483")
  = true
  /\ search_start date_pattern
       (lower ("FORM 10-Q " ++ period_phrase ++ " Commission file number 001-37483"))
     = Some (String.length "FORM 10-Q ")
  /\ extract_specific_dates
       "FORM 10-Q for the quarterly period ended: March 31, 2024 Commission file number 001-37483"
       Sample.s0
     = (Sample.s0, Return "For The Quarterly Period Ended: March 31, 2024").
Proof.
  split; [vm_compute; reflexivity|].
  split; [vm_compute; reflexivity|].
  exact (quarterly_period_is_title_cased "FORM 10-Q "
           " Commission file number 001-37483" Sample.s0 eq_refl eq_refl).
Defined.

(** C10.  When the first match of the pattern is a "for the  fiscal year
    ended:" one (its group 4 is not empty), the Period Extractor returns the
    empty string: it returns group 1 of the first match, which took no part
    in that match. *)
Lemma fiscal_year_first_group_empty (text : string)
      (tup : list string) (rest : list (list string)) :
  findall date_pattern (lower text) = tup :: rest ->
  nth 3 tup "" <> "" ->
  nth 0 tup "" = "".
Proof.
  intros H H4. apply findall_from_head in H as [s' [e [g [Hm ->]]]].
  unfold groups_tuple in *. simpl in *. unfold group_text in *.
  destruct (date_pattern_alternatives _ _ _ Hm) as [[_ Hg]|[_ Hg]];
    rewrite Hg in *; [now destruct H4 | reflexivity].
Qed.

(* ===================================================================== *)
(** ** The Entity Filter *)
(* ===================================================================== *)

Section CompanyFilter.

Let F (cells : list string) : bool := keeps_company (nth 0 cells "").

Lemma mask_of_rows (rows : list (nat * list string)) :
  Pd.str_contains
    (Pd.str_lower (map (fun r => (fst r, nth 0 (snd r) "")) rows))
    company_pattern
  = map (fun r => (fst r, F (snd r))) rows.
Proof.
  unfold Pd.str_contains, Pd.str_lower. rewrite !map_map. reflexivity.
Qed.

Lemma enum_index_bound {X : Type} (l : list X) (k i : nat) (x : X) :
  In (i, x) (combine (seq k (length l)) l) -> k <= i.
Proof.
  intros H. apply in_combine_l in H. apply in_seq in H. lia.
Qed.

Lemma find_in_enum {X Y : Type} (f : X -> Y) (l : list X) :
  forall k i x,
    In (i, x) (combine (seq k (length l)) l) ->
    find (fun p => Nat.eqb (fst p) i)
         (map (fun r => (fst r, f (snd r))) (combine (seq k (length l)) l))
    = Some (i, f x).
Proof.
  induction l as [|y l IH]; intros k i x H; simpl in H |- *; [contradiction|].
  destruct H as [H|H].
  - injection H as -> ->. now rewrite Nat.eqb_refl.
  - pose proof (enum_index_bound _ _ _ _ H) as Hle.
    destruct (Nat.eqb_spec k i) as [->|_]; [lia|]. now apply IH.
Qed.

Lemma select_rows (cols : list Pd.Label) (data : list (list string)) :
  Pd.rows (Pd.select (Pd.mk cols (enumerate data))
             (map (fun r => (fst r, F (snd r))) (enumerate data)))
  = filter (fun r => F (snd r)) (enumerate data).
Proof.
  unfold Pd.select. simpl. apply filter_ext_in. intros [i x] Hin.
  unfold enumerate in *. cbn [fst snd].
  now rewrite (find_in_enum F data 0 i x Hin).
Qed.

Lemma kept_names (names : list string) :
  forall k,
    map (fun r => nth 0 (snd r) "")
        (filter (fun r : nat * list string => F (snd r))
           (combine (seq k (length (map (fun x => [x]) names)))
              (map (fun x => [x]) names)))
    = filter keeps_company names.
Proof.
  induction names as [|n names IH]; intros k; simpl; [reflexivity|].
  unfold F at 1. simpl nth.
  destruct (keeps_company n); simpl; now rewrite IH.
Qed.

(** What [main] computes from a non-empty list of names. *)
Lemma first_company_of_frame (n : string) (names : list string) (s : Sys) :
  let df := Pd.of_list (n :: names) "Company Name" in
  exists column,
    Pd.getitem df (Pd.Str "Company Name") = inr column
    /\ (if negb (Pd.empty
                   (Pd.select df
                      (Pd.str_contains (Pd.str_lower column) company_pattern)))
        then call (Pd.iloc_at
                     (Pd.select df
                        (Pd.str_contains (Pd.str_lower column) company_pattern))
                     0 (Pd.Str "Company Name"))
        else ret "Unknown") s
       = (s, Return (first_company (n :: names))).
Proof.
  intros df.
  exists (map (fun r => (fst r, nth 0 (snd r) "")) (Pd.rows df)).
  split; [reflexivity|].
  rewrite mask_of_rows.
  unfold first_company. rewrite <- (kept_names (n :: names) 0).
  unfold Pd.empty, Pd.iloc_at.
  unfold df, Pd.of_list.
  set (data := map (fun x => [x]) (n :: names)).
  change (Pd.rows (Pd.mk [Pd.Str "Company Name"] (enumerate data)))
    with (enumerate data).
  rewrite select_rows.
  unfold Pd.select. cbn [Pd.columns].
  change (Pd.position (Pd.Str "Company Name") [Pd.Str "Company Name"])
    with (Some 0).
  unfold enumerate.
  destruct (filter (fun r : nat * list string => F (snd r))
              (combine (seq 0 (length data)) data))
    as [|r rows]; reflexivity.
Qed.

End CompanyFilter.

(* ===================================================================== *)
(** ** The blocks of the page *)
(* ===================================================================== *)

Lemma bind_assoc {A B C : Type} (m : M A) (f : A -> M B) (g : B -> M C) (s : Sys) :
  bind (bind m f) g s = bind m (fun a => bind (f a) g) s.
Proof. unfold bind. now destruct (m s) as [s' [a|e]]. Qed.

Lemma emit_run (e : Event) (s : Sys) :
  emit e s = (with_screen s (screen s ++ [e]), Return tt).
Proof. reflexivity. Qed.

Lemma call_inr_run {A : Type} (a : A) (s : Sys) : call (inr a) s = (s, Return a).
Proof. reflexivity. Qed.

Lemma call_inl_run {A : Type} (e : Exn) (s : Sys) :
  @call A (inl e) s = (s, Raise e).
Proof. reflexivity. Qed.

Lemma with_screen_twice (s : Sys) (l1 l2 : list Event) :
  with_screen (with_screen s l1) l2 = with_screen s l2.
Proof. reflexivity. Qed.

Ltac step H :=
  first [ rewrite (bind_return _ _ _ _ _ H)
        | rewrite bind_assoc, (bind_return _ _ _ _ _ H) ];
  cbv beta.

Ltac fail_with H :=
  first [ rewrite (bind_raise _ _ _ _ _ H)
        | rewrite bind_assoc, (bind_raise _ _ _ _ _ H) ].

Ltac tidy_screen :=
  unfold with_screen, st_write, st_error, emit; cbn [disk tmp_seq screen fst snd];
  repeat rewrite <- app_assoc; cbn [app].

Section MetadataBlock.
Variable w : World.
Variable text : string.

Lemma extract_company_name_ok (ents : list (string * string)) (s : Sys) :
  spacy_ents w text = inr ents ->
  extract_company_name w text s = (s, Return (org_names ents)).
Proof. intros H. unfold extract_company_name. now rewrite H. Qed.

Lemma extract_company_name_fails (e : Exn) (s : Sys) :
  spacy_ents w text = inl e ->
  extract_company_name w text s = (s, Raise e).
Proof. intros H. unfold extract_company_name. now rewrite H. Qed.

(** The company line, drawn from any state. *)
Lemma company_line_drawn (company_names : list string) (s : Sys) :
  match company_names with
  | _ :: _ =>
      let df := Pd.of_list company_names "Company Name" in
      column <- call (Pd.getitem df (Pd.Str "Company Name")) ;;
      let filtered_df :=
        Pd.select df (Pd.str_contains (Pd.str_lower column) company_pattern) in
      first_company <-
        (if negb (Pd.empty filtered_df)
         then call (Pd.iloc_at filtered_df 0 (Pd.Str "Company Name"))
         else ret "Unknown") ;;
      st_write (" - " ++ title first_company)
  | [] => st_write "No company names found in the document."
  end s
  = (with_screen s (screen s ++ [St_write (company_line company_names)]),
     Return tt).
Proof.
  destruct company_names as [|n names]; [reflexivity|].
  destruct (first_company_of_frame n names s) as [column [Hget Hfc]].
  cbv zeta in Hget, Hfc |- *. rewrite Hget.
  step (call_inr_run column s). step Hfc. reflexivity.
Qed.

(** The block when the recognizer answers: both lines are drawn when the
    pattern has a match; without a match the second line is never drawn
    and the block is left by the [KeyError]. *)
Lemma metadata_block_runs (ents : list (string * string)) (s : Sys) :
  spacy_ents w text = inr ents ->
  company_name_and_period_ending w text s
  = match findall date_pattern (lower text) with
    | [] =>
        (with_screen s
           (screen s ++
            [Enter metadata_block;
             St_write (company_line (org_names ents));
             Leave metadata_block]),
         Raise (KeyError "0"))
    | tup :: _ =>
        (with_screen s
           (screen s ++
            [Enter metadata_block;
             St_write (company_line (org_names ents));
             St_write (period_line tup);
             Leave metadata_block]),
         Return tt)
    end.
Proof.
  intros H. unfold company_name_and_period_ending, within.
  step (emit_run (Enter (Expander "Company Name & Period Ending")) s).
  step (extract_company_name_ok ents
          (with_screen s
             (screen s ++ [Enter (Expander "Company Name & Period Ending")])) H).
  step (company_line_drawn (org_names ents)
          (with_screen s
             (screen s ++ [Enter (Expander "Company Name & Period Ending")]))).
  destruct (findall date_pattern (lower text)) as [|tup rest] eqn:Hf.
  - fail_with (extract_specific_dates_no_match text
                 (with_screen
                    (with_screen s
                       (screen s ++ [Enter (Expander "Company Name & Period Ending")]))
                    (screen
                       (with_screen s
                          (screen s ++ [Enter (Expander "Company Name & Period Ending")]))
                     ++ [St_write (company_line (org_names ents))])) Hf).
    tidy_screen. reflexivity.
  - step (extract_specific_dates_first text
            (with_screen
               (with_screen s
                  (screen s ++ [Enter (Expander "Company Name & Period Ending")]))
               (screen
                  (with_screen s
                     (screen s ++ [Enter (Expander "Company Name & Period Ending")]))
                ++ [St_write (company_line (org_names ents))])) tup rest Hf).
    unfold period_line.
    destruct (truthy (title (nth 0 tup ""))); tidy_screen; reflexivity.
Qed.

(** The block when the recognizer raises. *)
Lemma metadata_block_fails (e : Exn) (s : Sys) :
  spacy_ents w text = inl e ->
  company_name_and_period_ending w text s
  = (with_screen s (screen s ++ [Enter metadata_block; Leave metadata_block]),
     Raise e).
Proof.
  intros H. unfold company_name_and_period_ending, within.
  step (emit_run (Enter (Expander "Company Name & Period Ending")) s).
  fail_with (extract_company_name_fails e
               (with_screen s
                  (screen s ++ [Enter (Expander "Company Name & Period Ending")])) H).
  tidy_screen. reflexivity.
Qed.

End MetadataBlock.

(** C10.  When the first match of the pattern is a "for the  fiscal year
    ended:" one (group 4 of the first tuple is not empty), the Period
    Extractor returns the empty string, because it returns group 1 of the
    first match and that group took no part in it; [main] then writes that
    no specific dates were found, although a period statement was matched. *)
Theorem fiscal_year_match_returns_empty
    (w : World) (text : string) (s : Sys)
    (tup : list string) (rest : list (list string))
    (Hfirst : findall date_pattern (lower text) = tup :: rest)
    (Hfiscal : nth 3 tup "" <> "") :
  extract_specific_dates text s = (s, Return "")
  /\ forall ents,
       spacy_ents w text = inr ents ->
       company_name_and_period_ending w text s
       = (with_screen s
            (screen s ++
             [Enter metadata_block;
              St_write (company_line (org_names ents));
              St_write "No specific dates found in the document.";
              Leave metadata_block]),
          Return tt).
Proof.
  pose proof (fiscal_year_first_group_empty text tup rest Hfirst Hfiscal) as H1.
  split.
  - rewrite (extract_specific_dates_first text s tup rest Hfirst). now rewrite H1.
  - intros ents Hents. rewrite (metadata_block_runs w text ents s Hents), Hfirst.
    unfold period_line. now rewrite H1.
Qed.

Lemma fiscal_year_match_returns_empty_witness :
  findall date_pattern (lower Sample.fiscal_year_text)
  = [[""; ""; ""; "for the  fiscal year ended: october 31, 2023"; "october 31, 2023"]]
  /\ nth 3 [""; ""; ""; "for the  fiscal year ended: october 31, 2023";
            "october 31, 2023"] "" <> ""
  /\ extract_specific_dates Sample.fiscal_year_text Sample.s0
     = (Sample.s0, Return "").
Proof.
  assert (H : findall date_pattern (lower Sample.fiscal_year_text)
              = [[""; ""; ""; "for the  fiscal year ended: october 31, 2023";
                  "october 31, 2023"]]) by (vm_compute; reflexivity).
  assert (H4 : nth 3 [""; ""; ""; "for the  fiscal year ended: october 31, 2023";
                      "october 31, 2023"] "" <> "") by (simpl; discriminate).
  split; [exact H|]. split; [exact H4|].
  exact (proj1 (fiscal_year_match_returns_empty Sample.world
                  Sample.fiscal_year_text Sample.s0 _ _ H H4)).
Defined.

(** C2.  On a text without any match of the pattern the Period Extractor
    does not return: indexing the empty frame raises [KeyError: 0].  In
    [main] the error leaves the block before the "No specific dates found"
    line, and the page ends with the message of the outer handler. *)
Theorem no_match_raises_key_error :
  findall date_pattern (lower Sample.undated_text) = []
  /\ extract_specific_dates Sample.undated_text Sample.s0
     = (Sample.s0, Raise (KeyError "0"))
  /\ last (screen (state_after (main Sample.world_undated) Sample.s0)) (St_title "")
     = St_error "An error occurred: 0"
  /\ ~ In (St_write "No specific dates found in the document.")
          (screen (state_after (main Sample.world_undated) Sample.s0)).
Proof.
  split; [vm_compute; reflexivity|].
  split; [vm_compute; reflexivity|].
  split; [vm_compute; reflexivity|].
  intros H. vm_compute in H.
  repeat (destruct H as [H|H]; [discriminate H|]). exact H.
Qed.

(** C6.  The filter of [main] keeps "Princeton University": the dot of the
    marker [inc.] is a wildcard of the regular expression, and matches the
    "e" after "inc".  None of the five markers occurs in the name, so the
    Entity Filter of the specification keeps nothing and reports
    "Unknown", where [main] reports the university. *)
Theorem company_filter_dot_is_a_wildcard :
  keeps_literal "Princeton University" = false
  /\ first_company_by_markers ["Princeton University"] = "Unknown"
  /\ keeps_company "Princeton University" = true
  /\ first_company ["Princeton University"] = "Princeton University"
  /\ screen (state_after
               (company_name_and_period_ending Sample.world_princeton
                  "Princeton University for the quarterly period ended: March 31, 2024")
               Sample.s0)
     = [Enter metadata_block;
        St_write " - Princeton University";
        St_write " - For The Quarterly Period Ended: March 31, 2024";
        Leave metadata_block].
Proof. repeat split; vm_compute; reflexivity. Qed.

(* ===================================================================== *)
(** ** The branches of [main] *)
(* ===================================================================== *)

Lemma draws_emit (e : Event) : Draws (emit e).
Proof. exists [e]. reflexivity. Qed.

Lemma draws_seq (m k : M unit) : Draws m -> Draws k -> Draws (m ;; k).
Proof.
  intros [e1 H1] [e2 H2]. exists (e1 ++ e2)%list. intros s.
  unfold bind. rewrite H1, H2. tidy_screen. reflexivity.
Qed.

Lemma draws_within (c : Container) (m : M unit) : Draws m -> Draws (within c m).
Proof.
  intros [evs H]. exists (Enter c :: evs ++ [Leave c])%list. intros s.
  unfold within, bind. rewrite emit_run, H. tidy_screen. reflexivity.
Qed.

Ltac draws :=
  lazymatch goal with
  | |- Draws (bind ?m (fun _ => ?k)) => apply (draws_seq m k); draws
  | |- Draws (within ?c ?m) => apply (draws_within c m); draws
  | |- Draws (st_header ?x) => exact (draws_emit (St_header x))
  | |- Draws (st_write ?x) => exact (draws_emit (St_write x))
  | |- Draws (emit ?e) => exact (draws_emit e)
  end.

Lemma for_each_draws {A : Type} (body : unit -> A -> M unit) (l : list A) :
  (forall u x, Draws (body u x)) ->
  forall s, exists evs,
    for_each l body tt s = (with_screen s (screen s ++ evs), Return tt).
Proof.
  intros Hbody. induction l as [|x l IH]; intros s; simpl for_each.
  - exists []. unfold ret, with_screen. rewrite app_nil_r. now destruct s.
  - destruct (Hbody tt x) as [e1 H1].
    rewrite (bind_return _ _ _ _ _ (H1 s)). cbv beta.
    destruct (IH (with_screen s (screen s ++ e1))) as [e2 H2]. rewrite H2.
    exists (e1 ++ e2)%list. tidy_screen. reflexivity.
Qed.

(** [show_tables] only draws: it returns, and the rest of the state is
    left as it was. *)
Lemma show_tables_only_draws (dataframes : list Grid) (s : Sys) :
  exists evs,
    show_tables dataframes s = (with_screen s (screen s ++ evs), Return tt).
Proof.
  unfold show_tables. destruct dataframes as [|g dataframes].
  - now exists [St_write "No tables matching the specified keywords extracted."].
  - apply for_each_draws. intros u x. cbv zeta.
    apply draws_seq; apply draws_emit.
Qed.

Section Branches.
Variable w : World.
Variable content : bytes.

Lemma extract_key_tables_eq (keywords : list string) (s : Sys) :
  exists out evs,
    extract_key_tables_from_pdf w content keywords s
    = (with_screen (saved s ".pdf" content) (screen s ++ evs), Return out)
    /\ (evs = [] \/ exists msg, evs = [St_error msg] /\ out = []).
Proof.
  destruct (extract_key_tables_runs w content keywords s)
    as [out [Ho [Hs|[msg [Hout Hs]]]]];
    unfold outcome, state_after in *;
    destruct (extract_key_tables_from_pdf w content keywords s) as [s' o];
    cbn [fst snd] in Ho, Hs; subst s' o.
  - exists out, []. split; [|now left].
    unfold with_screen, saved. cbn [disk tmp_seq screen]. now rewrite app_nil_r.
  - exists out, [St_error msg]. split; [reflexivity | right; eauto].
Qed.

(** The tables block is always drawn to its end: a failure of table
    detection or of the reading of a neighborhood is reported inside it. *)
Lemma tables_block_completes (s : Sys) :
  exists evs,
    key_financial_statements w content s
    = (with_screen (saved s ".pdf" content)
         (screen s ++ Enter tables_block :: evs ++ [Leave tables_block]),
       Return tt).
Proof.
  unfold key_financial_statements, within.
  step (emit_run (Enter (Expander "Key Financial Statements")) s).
  destruct (extract_key_tables_eq keywords_of_main
              (with_screen s
                 (screen s ++ [Enter (Expander "Key Financial Statements")])))
    as [out [evs [Hrun _]]].
  step Hrun.
  match goal with
  | |- context [show_tables out ?st] =>
      destruct (show_tables_only_draws out st) as [drawn Hdrawn]; rewrite Hdrawn
  end.
  exists (evs ++ drawn)%list.
  tidy_screen. reflexivity.
Qed.

(** The QA block always returns: whatever is raised while the index is
    built, the model is configured or the question is answered, the QA
    handler reports it. *)
Lemma qa_block_completes (s : Sys) :
  exists evs,
    qa_section w content s
    = (with_screen (saved s "pdf" content) (screen s ++ evs), Return tt)
    /\ (last evs (St_title "") = Leave qa_block
        \/ exists msg,
             last evs (St_title "")
             = St_error ("An error occurred while executing QA Section: " ++ msg)).
Proof.
  unfold qa_section, try_except.
  pose proof (load_pdf_and_create_index_state w content s) as Hs.
  unfold state_after in Hs.
  destruct (load_pdf_and_create_index w content s) as [s1 [idx|e]] eqn:Hload;
    cbn [fst] in Hs; subst s1.
  2:{ fail_with Hload.
      exists [St_error ("An error occurred while executing QA Section: " ++ str_exn e)].
      split; [tidy_screen; reflexivity | right; now exists (str_exn e)]. }
  step Hload.
  destruct (OpenAI w) as [e|llm].
  { rewrite (bind_raise _ _ _ _ _ (call_inl_run e _)).
    exists [St_error ("An error occurred while executing QA Section: " ++ str_exn e)].
    split; [tidy_screen; reflexivity | right; now exists (str_exn e)]. }
  step (call_inr_run llm (saved s "pdf" content)).
  destruct (RetrievalQA_from_chain_type w idx) as [e|qa].
  { rewrite (bind_raise _ _ _ _ _ (call_inl_run e _)).
    exists [St_error ("An error occurred while executing QA Section: " ++ str_exn e)].
    split; [tidy_screen; reflexivity | right; now exists (str_exn e)]. }
  step (call_inr_run qa (saved s "pdf" content)).
  unfold within, st_text_input.
  step (emit_run (Enter (Expander "Q & A with uploaded Financial Statement"))
          (saved s "pdf" content)).
  rewrite bind_assoc.
  match goal with
  | |- context [bind (emit ?e) ?f ?st] => rewrite (bind_return _ f st _ tt (emit_run e st))
  end.
  cbv beta.
  match goal with
  | |- context [bind (ret ?a) ?f ?st] => rewrite (bind_return _ f st st a eq_refl)
  end.
  cbv beta.
  destruct (truthy (question w)).
  - destruct (qa (question w)) as [e|result].
    + match goal with
      | |- context [bind (call (inl ?e)) ?f ?st] =>
          rewrite (bind_raise _ f st st e eq_refl)
      end.
      exists [Enter qa_block;
              St_text_input "Ask a question about the financial report";
              Leave qa_block;
              St_error ("An error occurred while executing QA Section: " ++ str_exn e)].
      split; [tidy_screen; reflexivity | right; now exists (str_exn e)].
    + match goal with
      | |- context [bind (call (inr ?a)) ?f ?st] =>
          rewrite (bind_return _ f st st a eq_refl)
      end.
      cbv beta.
      exists [Enter qa_block;
              St_text_input "Ask a question about the financial report";
              St_write ("Answer: " ++ fst result);
              St_write ("Source Documents: " ++ snd result);
              Leave qa_block].
      split; [unfold bind; tidy_screen; reflexivity | now left].
  - exists [Enter qa_block;
            St_text_input "Ask a question about the financial report";
            Leave qa_block].
    split; [unfold ret; tidy_screen; reflexivity | now left].
Qed.

End Branches.

(** C3, as the specification states it, fails when the recognizer's model
    is missing: the outer handler reports the error and neither the tables
    block nor the QA block is drawn. *)
Lemma recognizer_failure_stops_the_page : ~ every_branch_completes.
Proof.
  intros H.
  destruct (H Sample.world_without_recognizer Sample.pdf Sample.doc Sample.s0
              eq_refl eq_refl) as [Htables _].
  vm_compute in Htables.
  repeat (destruct Htables as [Htables|Htables]; [discriminate Htables|]).
  exact Htables.
Qed.

(* ===================================================================== *)
(** ** The filter of [main] and the markers of the specification *)
(* ===================================================================== *)

Lemma search_after_prefix (r : regex) (pre rest : string) :
  search r rest = true -> search r (pre ++ rest) = true.
Proof.
  intros H. induction pre as [|a pre IH]; [exact H|].
  simpl. now destruct (match_here r (String a (pre ++ rest))).
Qed.

(** X10.  Every name in which a marker occurs literally is kept by the
    filter of [main].  The converse fails for a name in which "inc" is
    followed by a character other than the dot. *)
Lemma literal_markers_are_kept (name : string) :
  keeps_literal name = true -> keeps_company name = true.
Proof.
  unfold keeps_literal, keeps_company. rewrite existsb_exists.
  intros [marker [Hin H]]. apply contains_spec in H as [pre [post ->]].
  apply search_after_prefix.
  destruct Hin as [<-|[<-|[<-|[<-|[<-|[]]]]]]; vm_compute; reflexivity.
Qed.

(* ===================================================================== *)
(** ** More on the Table Locator *)
(* ===================================================================== *)

Lemma detection_failure_is_soft_witness :
  camelot_read_pdf Sample.world_tables_and_qa_down Sample.pdf
  = inl (LibraryError "Ghostscript is not installed")
  /\ extract_key_tables_from_pdf Sample.world_tables_and_qa_down Sample.pdf
       keywords_of_main Sample.s0
     = (mkSys [("/tmp/tmp0.pdf", Sample.pdf)] 1
          [St_error
             "An error occurred while reading key tables from PDF: Ghostscript is not installed"],
        Return []).
Proof.
  split; [reflexivity|].
  exact (detection_failure_is_soft Sample.world_tables_and_qa_down Sample.pdf
           keywords_of_main Sample.s0 _ eq_refl).
Defined.

Section TableLocatorFailures.
Variable w : World.
Variable content : bytes.

Let turn (keywords : list string) (path : string) :=
  fun (locals : option Document * list Grid) (table : Table.t) =>
    (pdf' <- read_file path ;;
     doc <- call (fitz_open w pdf') ;;
     pg <- call (doc_getitem doc (Table.page table - 1)) ;;
     if contains_keywords (get_text_clip pg (Table._bbox table)) keywords
     then ret (Some doc, (snd locals ++ [Table.df table])%list)
     else ret (Some doc, snd locals)).

(** One turn on a table whose neighborhood cannot be read raises. *)
Lemma turn_unreadable (keywords : list string) (path : string) (s : Sys)
      locals (t : Table.t) :
  disk_lookup (disk s) path = Some content ->
  neighborhood w content t = None ->
  exists e, turn keywords path locals t s = (s, Raise e).
Proof.
  intros Hdisk Hn. unfold turn.
  rewrite (bind_return _ _ _ _ _ (read_file_found _ _ _ Hdisk)).
  unfold neighborhood in Hn.
  destruct (fitz_open w content) as [e|doc]; [exists e; reflexivity|].
  rewrite (bind_return _ _ s s doc eq_refl).
  destruct (doc_getitem doc (Table.page t - 1)) as [e|pg]; [|discriminate].
  exists e. reflexivity.
Qed.

(** One turn on a readable table returns. *)
Lemma turn_readable (keywords : list string) (path : string) (s : Sys)
      locals (t : Table.t) (text : string) :
  disk_lookup (disk s) path = Some content ->
  neighborhood w content t = Some text ->
  exists locals', turn keywords path locals t s = (s, Return locals').
Proof.
  intros Hdisk Hn. unfold turn.
  rewrite (bind_return _ _ _ _ _ (read_file_found _ _ _ Hdisk)).
  unfold neighborhood in Hn.
  destruct (fitz_open w content) as [e|doc]; [discriminate|].
  rewrite (bind_return _ _ s s doc eq_refl).
  destruct (doc_getitem doc (Table.page t - 1)) as [e|pg]; [discriminate|].
  rewrite (bind_return _ _ s s pg eq_refl).
  destruct (contains_keywords _ keywords); eexists; reflexivity.
Qed.

(** The loop raises as soon as it meets a table it cannot read. *)
Lemma loop_unreadable (keywords : list string) (path : string) (s : Sys)
      (tables : list Table.t) :
  disk_lookup (disk s) path = Some content ->
  (exists t, In t tables /\ neighborhood w content t = None) ->
  forall locals,
  exists e, for_each tables (turn keywords path) locals s = (s, Raise e).
Proof.
  intros Hdisk. induction tables as [|t tables IH]; intros [t' [Hin Hn]] locals.
  - contradiction.
  - simpl for_each.
    destruct (neighborhood w content t) as [text|] eqn:Ht.
    + destruct (turn_readable keywords path s locals t text Hdisk Ht)
        as [locals' Hturn].
      rewrite (bind_return _ _ _ _ _ Hturn).
      apply IH. destruct Hin as [<-|Hin]; [congruence|]. eauto.
    + destruct (turn_unreadable keywords path s locals t Hdisk Ht) as [e Hturn].
      exists e. now rewrite (bind_raise _ _ _ _ _ Hturn).
Qed.

End TableLocatorFailures.

(** What the Table Locator does when every neighborhood can be read. *)
Lemma extract_key_tables_selects
      (w : World) (content : bytes) (keywords : list string) (s : Sys)
      (tables : list Table.t) :
  camelot_read_pdf w content = inr tables ->
  (forall t, In t tables -> neighborhood w content t <> None) ->
  extract_key_tables_from_pdf w content keywords s
  = (with_screen (saved s ".pdf" content)
       (screen s ++
        match tables with
        | [] => [reading_error (UnboundLocalError "doc")]
        | _ :: _ => []
        end),
     Return (selected w content keywords tables)).
Proof.
  intros Hcam Hn. unfold extract_key_tables_from_pdf.
  rewrite (bind_return _ _ _ _ _ (save_upload ".pdf" content s)).
  cbv beta. rewrite truthy_tmp_name. cbv iota.
  unfold try_except.
  rewrite (bind_return _ _ _ _ _
             (read_file_found _ _ _ (saved_lookup s ".pdf" content))).
  rewrite Hcam.
  rewrite (bind_return _ _ (saved s ".pdf" content) _ tables eq_refl).
  destruct (loop_selects w content keywords (tmp_name (tmp_seq s) ".pdf")
              (saved s ".pdf" content) tables
              (saved_lookup s ".pdf" content) Hn (None, []))
    as [d [Hrun [Hnil Hcons]]].
  cbv zeta.
  rewrite (bind_return _ _ _ _ _ Hrun). simpl fst. simpl snd.
  destruct tables as [|t tables].
  - rewrite (Hnil eq_refl). reflexivity.
  - destruct d as [doc|]; [|now destruct Hcons].
    unfold with_screen, saved. cbn [disk tmp_seq screen bind ret].
    rewrite app_nil_r. reflexivity.
Qed.

(** X2.  All or nothing: when the text of one detected table cannot be read
    (the document does not open, or the table's page is not in it), the
    Table Locator returns the empty list and draws the error, also when
    tables before it had a keyword. *)
Theorem unreadable_table_discards_all
    (w : World) (content : bytes) (keywords : list string) (s : Sys)
    (tables : list Table.t)
    (Hdetect : camelot_read_pdf w content = inr tables)
    (Hstray : exists t, In t tables /\ neighborhood w content t = None) :
  exists e,
    extract_key_tables_from_pdf w content keywords s
    = (with_screen (saved s ".pdf" content) (screen s ++ [reading_error e]),
       Return []).
Proof.
  unfold extract_key_tables_from_pdf.
  rewrite (bind_return _ _ _ _ _ (save_upload ".pdf" content s)).
  cbv beta. rewrite truthy_tmp_name. cbv iota.
  unfold try_except.
  rewrite (bind_return _ _ _ _ _
             (read_file_found _ _ _ (saved_lookup s ".pdf" content))).
  rewrite Hdetect.
  rewrite (bind_return _ _ (saved s ".pdf" content) _ tables eq_refl).
  cbv zeta.
  destruct (loop_unreadable w content keywords (tmp_name (tmp_seq s) ".pdf")
              (saved s ".pdf" content) tables
              (saved_lookup s ".pdf" content) Hstray (None, []))
    as [e He].
  exists e. rewrite (bind_raise _ _ _ _ _ He). reflexivity.
Qed.

Lemma unreadable_table_discards_all_witness :
  camelot_read_pdf Sample.world_with_stray_page Sample.pdf
  = inr Sample.tables_with_stray_page
  /\ keeps Sample.world_with_stray_page Sample.pdf keywords_of_main
       (Table.mk 1 Sample.box_a Sample.earnings) = true
  /\ exists e,
       extract_key_tables_from_pdf Sample.world_with_stray_page Sample.pdf
         keywords_of_main Sample.s0
       = (with_screen (saved Sample.s0 ".pdf" Sample.pdf)
            (screen Sample.s0 ++ [reading_error e]),
          Return []).
Proof.
  split; [reflexivity|]. split; [vm_compute; reflexivity|].
  apply (unreadable_table_discards_all Sample.world_with_stray_page Sample.pdf
           keywords_of_main Sample.s0 Sample.tables_with_stray_page eq_refl).
  exists (Table.mk 7 Sample.box_b Sample.notes).
  split; [right; left; reflexivity | reflexivity].
Defined.

(** X3.  Where an exception can leave the Table Locator.  The function is
    lines 74 to 76, which save the upload, followed by lines 78 to 103, in
    which everything but the two calls of [st.error] is inside the [try].
    With any computation in the place of the saving step and any in the
    place of [st.error], what the saving step raises is raised by the
    function, and an exception that the function raises is one that the
    saving step or [st.error] raised: nothing raised by camelot, by PyMuPDF
    or by the reading of the file gets out.  And when [st.error]
    draws its message, lines 78 to 103 return for every path and whatever
    is on disk: they leave the disk as it is and draw at most one message,
    with the empty list as the result when they draw one; "Failed to save
    the uploaded PDF file." is drawn for the empty path only. *)
Theorem table_locator_raises_only_outside_try
    (w : World) (content : bytes) (keywords : list string) :
  extract_key_tables_from_pdf w content keywords
  = (temp_file_path <-
       NamedTemporaryFile false ".pdf" (fun temp_file =>
         file_write temp_file content ;;
         ret temp_file) ;;
     key_tables_at w st_error temp_file_path keywords)
  /\ (forall (save : M string) (error : string -> M unit) (s : Sys) (e : Exn),
        (outcome save s = Raise e ->
         outcome (temp_file_path <- save ;;
                  key_tables_at w error temp_file_path keywords) s = Raise e)
        /\ (outcome (temp_file_path <- save ;;
                     key_tables_at w error temp_file_path keywords) s = Raise e ->
            outcome save s = Raise e
            \/ exists msg s', outcome (error msg) s' = Raise e))
  /\ (forall (temp_file_path : string) (s : Sys),
        exists out evs,
          key_tables_at w st_error temp_file_path keywords s
          = (with_screen s (screen s ++ evs), Return out)
          /\ (evs = []
              \/ (exists e, evs = [reading_error e] /\ out = [])
              \/ (temp_file_path = ""
                  /\ evs = [St_error "Failed to save the uploaded PDF file."]
                  /\ out = []))).
Proof.
  split; [reflexivity|]. split.
  - intros save error s e. unfold outcome, bind at 1 2.
    destruct (save s) as [s1 [path|e1]]; cbn [snd];
      [|split; intros H; injection H as ->; [reflexivity | now left]].
    split; [discriminate|].
    intros H. right. unfold key_tables_at in H.
    destruct (truthy path).
    + unfold try_except in H.
      match type of H with
      | snd (match ?b with _ => _ end) = _ => destruct b as [s2 [out|e2]]
      end; [discriminate H|].
      unfold bind in H.
      match type of H with
      | context [error ?msg s2] =>
          exists msg, s2; unfold outcome; destruct (error msg s2) as [s3 [[]|e3]]
      end; [discriminate H | cbn [snd] in H |- *; now injection H as ->].
    + unfold bind in H.
      match type of H with
      | context [error ?msg s1] =>
          exists msg, s1; unfold outcome; destruct (error msg s1) as [s3 [[]|e3]]
      end; [discriminate H | cbn [snd] in H |- *; now injection H as ->].
  - intros temp_file_path s. unfold key_tables_at.
    destruct temp_file_path as [|a path]; cbn [truthy].
    + exists [], [St_error "Failed to save the uploaded PDF file."].
      split; [reflexivity|]. right. right. repeat split.
    + match goal with
      | |- context [try_except ?b ?h s] =>
          assert (Hsame : fst (b s) = s) by state_same;
          unfold try_except; destruct (b s) as [s2 [out|e]]
      end; cbn [fst] in Hsame; subst s2.
      * exists out, []. split; [|now left].
        unfold with_screen. rewrite app_nil_r. now destruct s.
      * exists [], [reading_error e]. split; [reflexivity|]. right. left. eauto.
Qed.

Lemma more_keywords_keep (w : World) (content : bytes)
      (keywords more : list string) (tables : list Table.t) :
  incl (selected w content keywords tables)
       (selected w content (keywords ++ more) tables).
Proof.
  intros g Hg. unfold selected in *. apply in_map_iff in Hg as [t [Hdf Hin]].
  apply in_map_iff. exists t. split; [exact Hdf|].
  apply filter_In in Hin as [Hin Hk]. apply filter_In. split; [exact Hin|].
  unfold keeps in *. destruct (neighborhood w content t); [|discriminate].
  unfold contains_keywords in *. rewrite existsb_app, Hk. reflexivity.
Qed.

(** X4.  More keywords never lose a table: when every neighborhood can be
    read, each grid returned for a list of keywords is also returned for
    that list extended by further keywords. *)
Theorem more_keywords_keep_more_tables
    (w : World) (content : bytes) (keywords more : list string) (s : Sys)
    (tables : list Table.t)
    (Hdetect : camelot_read_pdf w content = inr tables)
    (Hread : forall t, In t tables -> neighborhood w content t <> None) :
  exists out out',
    outcome (extract_key_tables_from_pdf w content keywords) s = Return out
    /\ outcome (extract_key_tables_from_pdf w content (keywords ++ more)) s
       = Return out'
    /\ incl out out'.
Proof.
  exists (selected w content keywords tables),
         (selected w content (keywords ++ more) tables).
  unfold outcome.
  rewrite (extract_key_tables_selects w content keywords s tables Hdetect Hread).
  rewrite (extract_key_tables_selects w content (keywords ++ more) s tables
             Hdetect Hread).
  repeat split. apply more_keywords_keep.
Qed.

Lemma more_keywords_keep_more_tables_witness :
  camelot_read_pdf Sample.world Sample.pdf = inr Sample.tables
  /\ (forall t, In t Sample.tables ->
                neighborhood Sample.world Sample.pdf t <> None)
  /\ exists out out',
       outcome (extract_key_tables_from_pdf Sample.world Sample.pdf
                  ["total current assets"]) Sample.s0 = Return out
       /\ outcome (extract_key_tables_from_pdf Sample.world Sample.pdf
                     (["total current assets"] ++ ["notes"])) Sample.s0
          = Return out'
       /\ incl out out'.
Proof.
  assert (H : forall t, In t Sample.tables ->
                        neighborhood Sample.world Sample.pdf t <> None).
  { intros t [<-|[<-|[<-|[]]]]; discriminate. }
  split; [reflexivity|]. split; [exact H|].
  exact (more_keywords_keep_more_tables Sample.world Sample.pdf
           ["total current assets"] ["notes"] Sample.s0 Sample.tables eq_refl H).
Defined.

(* ===================================================================== *)
(** ** More on [contains_keywords] *)
(* ===================================================================== *)

Lemma contains_empty_needle (hay : string) : contains "" hay = true.
Proof. now destruct hay. Qed.

Lemma contains_in_empty (needle : string) :
  contains needle "" = true <-> needle = "".
Proof.
  rewrite contains_spec. split.
  - intros [pre [post H]]. destruct pre; [|discriminate].
    destruct needle; [reflexivity | discriminate].
  - intros ->. now exists "", "".
Qed.

Lemma lower_empty (s : string) : lower s = "" <-> s = "".
Proof. destruct s; simpl; split; congruence. Qed.

(** X5.  An empty keyword matches every text, and the empty text is matched
    by an empty keyword only. *)
Theorem empty_keyword_and_empty_text (keywords : list string) :
  (In "" keywords -> forall text, contains_keywords text keywords = true)
  /\ (contains_keywords "" keywords = true <-> In "" keywords).
Proof.
  unfold contains_keywords. split.
  - intros Hin text. apply existsb_exists. exists "". split; [exact Hin|].
    apply contains_empty_needle.
  - rewrite existsb_exists. split.
    + intros [k [Hin Hk]].
      pose proof (proj1 (lower_empty k) (proj1 (contains_in_empty _) Hk)) as Hempty.
      now rewrite Hempty in Hin.
    + intros Hin. exists "". split; [exact Hin | reflexivity].
Qed.

Lemma empty_keyword_and_empty_text_witness :
  In "" ["total current assets"; ""]
  /\ contains_keywords "Notes to the statements" ["total current assets"; ""] = true.
Proof.
  assert (H : In "" ["total current assets"; ""]) by (right; left; reflexivity).
  split; [exact H|].
  exact (proj1 (empty_keyword_and_empty_text ["total current assets"; ""]) H
           "Notes to the statements").
Defined.






(** X7.  A match is not lost in a larger text.  On text of ASCII
    characters, a keyword found in a text is found in every text that
    contains it: there lower-casing goes character by character, so the
    lower-cased text is still a part of the lower-cased larger text. *)
Theorem keyword_match_survives_context
    (text pre post : string) (keywords : list string)
    (Hascii : isascii (pre ++ text ++ post) = true)
    (Hfound : contains_keywords text keywords = true) :
  contains_keywords (pre ++ text ++ post) keywords = true.
Proof.
  apply contains_keywords_spec in Hfound as [k [Hin [p [q H]]]].
  apply contains_keywords_spec. exists k. split; [exact Hin|].
  exists (lower pre ++ p), (q ++ lower post).
  rewrite !lower_app, H, !string_app_assoc. reflexivity.
Qed.

Lemma keyword_match_survives_context_witness :
  isascii ("Cash 1,000 " ++ "Total current assets" ++ " 19,553") = true
  /\ contains_keywords "Total current assets" keywords_of_main = true
  /\ contains_keywords ("Cash 1,000 " ++ "Total current assets" ++ " 19,553")
       keywords_of_main = true.
Proof.
  split; [reflexivity|]. split; [reflexivity|].
  exact (keyword_match_survives_context "Total current assets" "Cash 1,000 "
           " 19,553" keywords_of_main eq_refl eq_refl).
Defined.

(* ===================================================================== *)
(** ** More on the Period Extractor *)
(* ===================================================================== *)

Lemma findall_nil_iff (r : regex) (s : string) :
  findall r s = [] <-> search r s = false.
Proof.
  unfold findall. induction s as [|a s IH]; simpl.
  - destruct (match_here r "") as [[e g]|]; split; congruence.
  - destruct (match_here r (String a s)) as [[e g]|]; [split; congruence|].
    exact IH.
Qed.

(** X8.  The Period Extractor leaves the state as it is.  It raises
    [KeyError: 0] on every text in which the pattern, applied to the
    lower-cased text, has no match, and returns on every other text. *)
Theorem period_extractor_raises_without_match (text : string) (s : Sys) :
  state_after (extract_specific_dates text) s = s
  /\ (search date_pattern (lower text) = false ->
      outcome (extract_specific_dates text) s = Raise (KeyError "0"))
  /\ (search date_pattern (lower text) = true ->
      exists period, outcome (extract_specific_dates text) s = Return period).
Proof.
  unfold state_after, outcome.
  destruct (findall date_pattern (lower text)) as [|tup rest] eqn:Hf.
  - rewrite (extract_specific_dates_no_match text s Hf).
    apply findall_nil_iff in Hf.
    split; [reflexivity|]. split; [reflexivity | congruence].
  - rewrite (extract_specific_dates_first text s tup rest Hf).
    split; [reflexivity|]. split.
    + intros Hs. apply findall_nil_iff in Hs. congruence.
    + intros _. now exists (title (nth 0 tup "")).
Qed.

Lemma period_extractor_raises_without_match_witness :
  search date_pattern (lower "Annual Report 2023") = false
  /\ outcome (extract_specific_dates "Annual Report 2023") Sample.s0
     = Raise (KeyError "0").
Proof.
  split; [reflexivity|].
  exact (proj1 (proj2 (period_extractor_raises_without_match
                         "Annual Report 2023" Sample.s0)) eq_refl).
Defined.

Section MatcherPositions.
Context {T : Type}.

Lemma rep_advances (c : cls) (s : string) :
  forall lo hi pos (k : nat -> string -> option T) x,
    rep c lo hi pos s k = Some x ->
    exists pos' s', k pos' s' = Some x /\ pos <= pos'.
Proof.
  induction s as [|a s IH]; intros lo hi pos k x H; simpl in H.
  - destruct (may_take hi), lo; try discriminate; eauto.
  - destruct (may_take hi).
    + destruct (cls_match c a).
      * destruct (rep c (pred lo) (option_map pred hi) (S pos) s k) eqn:E.
        -- injection H as <-. apply IH in E as [pos' [s' [E Hle]]].
           exists pos', s'. split; [exact E | lia].
        -- destruct lo; try discriminate; eauto.
      * destruct lo; try discriminate; eauto.
    + destruct lo; try discriminate; eauto.
Qed.

(** A match never moves backwards. *)
Lemma rmatch_advances (r : regex) :
  forall pos s g (k : nat -> string -> marks -> option T) x,
    rmatch r pos s g k = Some x ->
    exists pos' s' g', k pos' s' g' = Some x /\ pos <= pos'.
Proof.
  induction r as [|a|c|c lo hi|r1 IH1 r2 IH2|r1 IH1 r2 IH2|m r IH];
    intros pos s g k x H; simpl in H.
  - eauto.
  - destruct s as [|b s]; [discriminate|].
    destruct (Ascii.eqb b a); [|discriminate]. exists (S pos), s, g. split; [exact H | lia].
  - destruct s as [|b s]; [discriminate|].
    destruct (cls_match c b); [|discriminate]. exists (S pos), s, g. split; [exact H | lia].
  - apply rep_advances in H as [pos' [s' [H Hle]]]. eauto.
  - apply IH1 in H as [pos1 [s1 [g1 [H H1]]]].
    apply IH2 in H as [pos2 [s2 [g2 [H H2]]]].
    exists pos2, s2, g2. split; [exact H | lia].
  - destruct (rmatch r1 pos s g k) eqn:E.
    + injection H as <-. now apply IH1 in E.
    + now apply IH2 in H.
  - apply IH in H as [pos' [s' [g' [H Hle]]]]. eauto.
Qed.

(** A literal matches itself only. *)
Lemma rmatch_lit (l : string) :
  forall pos s g (k : nat -> string -> marks -> option T) x,
    rmatch (lit l) pos s g k = Some x ->
    exists s', s = l ++ s' /\ k (pos + String.length l) s' g = Some x.
Proof.
  induction l as [|a l IH]; intros pos s g k x H; simpl in H.
  - exists s. rewrite Nat.add_0_r. now split.
  - destruct s as [|b s]; [discriminate|].
    destruct (Ascii.eqb_spec b a) as [->|_]; [|discriminate].
    apply IH in H as [s' [-> H]]. exists s'. split; [reflexivity|].
    simpl String.length. now rewrite Nat.add_succ_r.
Qed.
End MatcherPositions.

Lemma rmatch_cat {T : Type} (r1 r2 : regex) (pos : nat) (s : string) (g : marks)
      (k : nat -> string -> marks -> option T) :
  rmatch (Cat r1 r2) pos s g k
  = rmatch r1 pos s g (fun pos' s' g' => rmatch r2 pos' s' g' k).
Proof. reflexivity. Qed.

Lemma rmatch_grp {T : Type} (n : nat) (r : regex) (pos : nat) (s : string)
      (g : marks) (k : nat -> string -> marks -> option T) :
  rmatch (Grp n r) pos s g k
  = rmatch r pos s g (fun pos' s' g' => k pos' s' (set_mark n (pos, pos') g')).
Proof. reflexivity. Qed.

Lemma substring_past_prefix (p t : string) (e : nat) :
  String.length p <= e ->
  substring 0 e (p ++ t) = p ++ substring 0 (e - String.length p) t.
Proof.
  revert e. induction p as [|a p IH]; intros e He; simpl in *.
  - now rewrite Nat.sub_0_r.
  - destruct e as [|e]; [lia|]. simpl. rewrite IH by lia. reflexivity.
Qed.

(** In a match of [date_pattern], group 1 either took no part or begins
    with one of the two "period ended" phrases. *)
Lemma period_group_shape (s : string) (e : nat) (g : marks) :
  match_here date_pattern s = Some (e, g) ->
  g 1 = None
  \/ exists rest,
       group_text s g 1 = "for the quarterly period ended:" ++ rest
       \/ group_text s g 1 = "for the fiscal period ended:" ++ rest.
Proof.
  unfold match_here, date_pattern. intros H. rewrite rmatch_alt in H.
  match type of H with
  | match ?a with _ => _ end = _ => destruct a as [x|] eqn:E
  end.
  - injection H as ->. right.
    rewrite rmatch_grp, rmatch_cat in E.
    apply rmatch_lit in E as [s1 [-> E]]. cbv beta in E.
    rewrite rmatch_cat, rmatch_grp, rmatch_alt in E.
    match type of E with
    | match ?a with _ => _ end = _ => destruct a as [y|] eqn:E2
    end.
    + injection E as ->.
      apply rmatch_lit in E2 as [s2 [-> E2]]. cbv beta in E2.
      rewrite rmatch_cat in E2.
      apply rmatch_lit in E2 as [s3 [-> E2]]. cbv beta in E2.
      apply rmatch_advances in E2 as [pos' [s' [g' [E2 Hle]]]].
      injection E2 as <- <-.
      exists (substring 0 (pos' - 31) s3). left.
      unfold group_text, set_mark. simpl Nat.eqb. cbv iota.
      change ("for the " ++ "quarterly" ++ " period ended:" ++ s3)
        with ("for the quarterly period ended:" ++ s3).
      rewrite Nat.sub_0_r.
      rewrite substring_past_prefix by (simpl in *; lia). reflexivity.
    + apply rmatch_lit in E as [s2 [-> E]]. cbv beta in E.
      rewrite rmatch_cat in E.
      apply rmatch_lit in E as [s3 [-> E]]. cbv beta in E.
      apply rmatch_advances in E as [pos' [s' [g' [E Hle]]]].
      injection E as <- <-.
      exists (substring 0 (pos' - 28) s3). right.
      unfold group_text, set_mark. simpl Nat.eqb. cbv iota.
      change ("for the " ++ "fiscal" ++ " period ended:" ++ s3)
        with ("for the fiscal period ended:" ++ s3).
      rewrite Nat.sub_0_r.
      rewrite substring_past_prefix by (simpl in *; lia). reflexivity.
  - left. apply (match_group 4) in H as [_ H]. now apply H.
Qed.

(** X9.  Whatever the Period Extractor returns is either empty or begins
    with "For The Quarterly Period Ended:" or "For The Fiscal Period
    Ended:": a fiscal-year statement is never returned. *)
Theorem reported_period_shape (text : string) (s : Sys) (period : string)
    (Hreturn : outcome (extract_specific_dates text) s = Return period) :
  period = ""
  \/ exists rest,
       period = "For The Quarterly Period Ended:" ++ rest
       \/ period = "For The Fiscal Period Ended:" ++ rest.
Proof.
  unfold outcome in Hreturn.
  destruct (findall date_pattern (lower text)) as [|tup more] eqn:Hf.
  - rewrite (extract_specific_dates_no_match text s Hf) in Hreturn.
    discriminate.
  - rewrite (extract_specific_dates_first text s tup more Hf) in Hreturn.
    injection Hreturn as <-.
    apply findall_from_head in Hf as [s' [e [g [Hm ->]]]].
    change (nth 0 (groups_tuple date_pattern s' g) "") with (group_text s' g 1).
    destruct (period_group_shape s' e g Hm) as [Hnone|[rest [Hq|Hq]]].
    + left. unfold group_text. now rewrite Hnone.
    + right. exists (title_from false rest). left. now rewrite Hq.
    + right. exists (title_from false rest). right. now rewrite Hq.
Qed.

Lemma reported_period_shape_witness :
  outcome (extract_specific_dates
             "Form 10-Q for the fiscal period ended: June 30, 2023")
    Sample.s0
  = Return "For The Fiscal Period Ended: June 30, 2023"
  /\ ("For The Fiscal Period Ended: June 30, 2023" = ""
      \/ exists rest,
           "For The Fiscal Period Ended: June 30, 2023"
           = "For The Quarterly Period Ended:" ++ rest
           \/ "For The Fiscal Period Ended: June 30, 2023"
              = "For The Fiscal Period Ended:" ++ rest).
Proof.
  split; [reflexivity|].
  exact (reported_period_shape
           "Form 10-Q for the fiscal period ended: June 30, 2023" Sample.s0
           "For The Fiscal Period Ended: June 30, 2023" eq_refl).
Defined.

(* ===================================================================== *)
(** ** More on the Entity Filter *)
(* ===================================================================== *)

Lemma literal_markers_are_kept_witness :
  keeps_literal "ACME Corporation" = true
  /\ keeps_company "ACME Corporation" = true.
Proof.
  split; [reflexivity|].
  exact (literal_markers_are_kept "ACME Corporation" eq_refl).
Defined.

(** The company line is drawn whether or not a period is found. *)
Lemma company_line_is_drawn (w : World) (text : string)
      (ents : list (string * string)) (s : Sys) :
  spacy_ents w text = inr ents ->
  In (St_write (company_line (org_names ents)))
     (screen (state_after (company_name_and_period_ending w text) s)).
Proof.
  intros H. unfold state_after. rewrite (metadata_block_runs w text ents s H).
  destruct (findall date_pattern (lower text)); simpl;
    apply in_or_app; right; right; now left.
Qed.

Lemma filter_none {A : Type} (f : A -> bool) (l : list A) :
  (forall x, In x l -> f x = false) -> filter f l = [].
Proof.
  induction l as [|x l IH]; intros H; simpl; [reflexivity|].
  rewrite (H x (or_introl eq_refl)). apply IH. intros y Hy. apply H. now right.
Qed.



(** X12.  When no organization matches the pattern, [main] writes
    " - Unknown"; when the recognizer finds no organization at all (other
    labels do not count), it writes that no company names were found. *)
Theorem no_matching_org_reports_unknown
    (w : World) (text : string) (ents : list (string * string)) (s : Sys)
    (Hents : spacy_ents w text = inr ents)
    (Hnone : forall n, In n (org_names ents) -> keeps_company n = false) :
  In (St_write
        match org_names ents with
        | [] => "No company names found in the document."
        | _ :: _ => " - Unknown"
        end)
     (screen (state_after (company_name_and_period_ending w text) s)).
Proof.
  pose proof (company_line_is_drawn w text ents s Hents) as H.
  unfold company_line, first_company in H.
  rewrite (filter_none _ _ Hnone) in H.
  destruct (org_names ents); exact H.
Qed.

Lemma no_matching_org_reports_unknown_witness :
  keeps_company "SEC" = false
  /\ keeps_company "Apple Inc" = false
  /\ In (St_write " - Unknown")
        (screen (state_after
                   (company_name_and_period_ending Sample.world_without_marker
                      "Form 10-K")
                   Sample.s0)).
Proof.
  split; [reflexivity|]. split; [reflexivity|].
  apply (no_matching_org_reports_unknown Sample.world_without_marker "Form 10-K"
           [("SEC", "ORG"); ("Apple Inc", "ORG"); ("Cupertino", "GPE")]
           Sample.s0 eq_refl).
  intros n [<-|[<-|[]]]; reflexivity.
Defined.

(* ===================================================================== *)
(** ** The Retrieval Index Builder and the QA section *)
(* ===================================================================== *)

(** X13.  The Retrieval Index Builder saves the upload, hands exactly the
    uploaded bytes to the loader, the pages to the splitter (separator
    newline, chunk size 2000, overlap 200) and the chunks to the index
    creator, and returns the index.  It has no handler: what a stage raises
    is raised by the function, and the later stages do not run.  The saved
    copy is on disk in every case. *)
Theorem index_builder_runs_three_stages
    (w : World) (content : bytes) (s : Sys) :
  load_pdf_and_create_index w content s
  = (saved s "pdf" content,
     match loader_load_and_split w content with
     | inl e => Raise e
     | inr pages =>
         match split_documents w (String "010" "") 2000 200 pages with
         | inl e => Raise e
         | inr texts =>
             match from_documents w texts with
             | inl e => Raise e
             | inr vectorstore_index => Return vectorstore_index
             end
         end
     end).
Proof.
  unfold load_pdf_and_create_index.
  rewrite (bind_return _ _ _ _ _ (save_upload "pdf" content s)). cbv beta.
  rewrite (bind_return _ _ _ _ _
             (read_file_found _ _ _ (saved_lookup s "pdf" content))).
  destruct (loader_load_and_split w content) as [e|pages]; [reflexivity|].
  rewrite (bind_return _ _ (saved s "pdf" content) _ pages eq_refl).
  destruct (split_documents w (String "010" "") 2000 200 pages) as [e|texts];
    [reflexivity|].
  rewrite (bind_return _ _ (saved s "pdf" content) _ texts eq_refl).
  destruct (from_documents w texts) as [e|idx]; reflexivity.
Qed.

Section QaSection.
Variable w : World.
Variable content : bytes.
Variable s : Sys.

Lemma load_outcome (o : Outcome Index) :
  outcome (load_pdf_and_create_index w content) s = o ->
  load_pdf_and_create_index w content s = (saved s "pdf" content, o).
Proof.
  intros <-. unfold outcome.
  rewrite <- (load_pdf_and_create_index_state w content s). unfold state_after.
  now destruct (load_pdf_and_create_index w content s).
Qed.

(** The QA section once the index, the model and the chain are there. *)
Lemma qa_section_asks (idx : Index) (llm : unit)
      (qa : string -> Exn + (string * string)) :
  outcome (load_pdf_and_create_index w content) s = Return idx ->
  OpenAI w = inr llm ->
  RetrievalQA_from_chain_type w idx = inr qa ->
  qa_section w content s
  = match
      (if truthy (question w)
       then match qa (question w) with
            | inr result =>
                Return [St_write ("Answer: " ++ fst result);
                        St_write ("Source Documents: " ++ snd result)]
            | inl e => Raise e
            end
       else Return [])
    with
    | Return drawn =>
        (with_screen (saved s "pdf" content)
           (screen s ++
            Enter qa_block
            :: St_text_input "Ask a question about the financial report"
            :: drawn ++ [Leave qa_block]),
         Return tt)
    | Raise e =>
        (with_screen (saved s "pdf" content)
           (screen s ++
            [Enter qa_block;
             St_text_input "Ask a question about the financial report";
             Leave qa_block; qa_error e]),
         Return tt)
    end.
Proof.
  intros Hload Hllm Hqa. unfold qa_section, try_except.
  step (load_outcome _ Hload).
  rewrite Hllm. step (call_inr_run llm (saved s "pdf" content)).
  rewrite Hqa. step (call_inr_run qa (saved s "pdf" content)).
  unfold within, st_text_input.
  step (emit_run (Enter (Expander "Q & A with uploaded Financial Statement"))
          (saved s "pdf" content)).
  rewrite bind_assoc.
  match goal with
  | |- context [bind (emit ?e) ?f ?st] =>
      rewrite (bind_return _ f st _ tt (emit_run e st))
  end.
  cbv beta.
  match goal with
  | |- context [bind (ret ?a) ?f ?st] => rewrite (bind_return _ f st st a eq_refl)
  end.
  cbv beta.
  destruct (truthy (question w)).
  - destruct (qa (question w)) as [e|result].
    + match goal with
      | |- context [bind (call (inl ?e)) ?f ?st] =>
          rewrite (bind_raise _ f st st e eq_refl)
      end.
      unfold qa_error. tidy_screen. reflexivity.
    + match goal with
      | |- context [bind (call (inr ?a)) ?f ?st] =>
          rewrite (bind_return _ f st st a eq_refl)
      end.
      cbv beta. unfold bind. tidy_screen. reflexivity.
  - unfold ret. tidy_screen. reflexivity.
Qed.

End QaSection.

Lemma truthy_nonempty (x : string) : x <> "" -> truthy x = true.
Proof. destruct x; [congruence | reflexivity]. Qed.

(** X14.  With the index built, the model configured and a question typed,
    the QA section draws, inside its expander, the answer and then the
    source documents the chain returned for that question, and returns. *)
Theorem qa_answers_typed_question
    (w : World) (content : bytes) (s : Sys) (idx : Index) (llm : unit)
    (qa : string -> Exn + (string * string)) (result : string * string)
    (Hload : outcome (load_pdf_and_create_index w content) s = Return idx)
    (Hllm : OpenAI w = inr llm)
    (Hchain : RetrievalQA_from_chain_type w idx = inr qa)
    (Hquery : question w <> "")
    (Hanswer : qa (question w) = inr result) :
  qa_section w content s
  = (with_screen (saved s "pdf" content)
       (screen s ++
        [Enter qa_block;
         St_text_input "Ask a question about the financial report";
         St_write ("Answer: " ++ fst result);
         St_write ("Source Documents: " ++ snd result);
         Leave qa_block]),
     Return tt).
Proof.
  rewrite (qa_section_asks w content s idx llm qa Hload Hllm Hchain).
  now rewrite (truthy_nonempty _ Hquery), Hanswer.
Qed.

Lemma qa_answers_typed_question_witness :
  outcome (load_pdf_and_create_index Sample.world Sample.pdf) Sample.s0
  = Return ["page 1"; "page 2"]
  /\ question Sample.world <> ""
  /\ qa_section Sample.world Sample.pdf Sample.s0
     = (with_screen (saved Sample.s0 "pdf" Sample.pdf)
          [Enter qa_block;
           St_text_input "Ask a question about the financial report";
           St_write "Answer: 19,553";
           St_write "Source Documents: [page 2]";
           Leave qa_block],
        Return tt).
Proof.
  assert (Hq : question Sample.world <> "") by discriminate.
  split; [reflexivity|]. split; [exact Hq|].
  exact (qa_answers_typed_question Sample.world Sample.pdf Sample.s0
           ["page 1"; "page 2"] tt (fun q => inr ("19,553", "[page 2]"))
           ("19,553", "[page 2]") eq_refl eq_refl eq_refl Hq eq_refl).
Defined.

(** X15.  Without a question the chain is not called: the QA section draws
    its expander with the input only, whatever the chain would answer or
    raise. *)
Theorem no_question_no_call
    (w : World) (content : bytes) (s : Sys) (idx : Index) (llm : unit)
    (qa : string -> Exn + (string * string))
    (Hload : outcome (load_pdf_and_create_index w content) s = Return idx)
    (Hllm : OpenAI w = inr llm)
    (Hchain : RetrievalQA_from_chain_type w idx = inr qa)
    (Hquery : question w = "") :
  qa_section w content s
  = (with_screen (saved s "pdf" content)
       (screen s ++
        [Enter qa_block;
         St_text_input "Ask a question about the financial report";
         Leave qa_block]),
     Return tt).
Proof.
  rewrite (qa_section_asks w content s idx llm qa Hload Hllm Hchain).
  now rewrite Hquery.
Qed.

Lemma no_question_no_call_witness :
  question Sample.world_without_question = ""
  /\ qa_section Sample.world_without_question Sample.pdf Sample.s0
     = (with_screen (saved Sample.s0 "pdf" Sample.pdf)
          [Enter qa_block;
           St_text_input "Ask a question about the financial report";
           Leave qa_block],
        Return tt).
Proof.
  split; [reflexivity|].
  exact (no_question_no_call Sample.world_without_question Sample.pdf Sample.s0
           ["page 1"; "page 2"] tt
           (fun q => inl (LibraryError "RateLimitError"))
           eq_refl eq_refl eq_refl eq_refl).
Defined.

(** X16.  When the chain raises on the typed question, the expander is
    left with the input only and the handler of the QA section draws the
    error after it; the section returns. *)
Theorem failed_answer_is_reported
    (w : World) (content : bytes) (s : Sys) (idx : Index) (llm : unit)
    (qa : string -> Exn + (string * string)) (e : Exn)
    (Hload : outcome (load_pdf_and_create_index w content) s = Return idx)
    (Hllm : OpenAI w = inr llm)
    (Hchain : RetrievalQA_from_chain_type w idx = inr qa)
    (Hquery : question w <> "")
    (Hanswer : qa (question w) = inl e) :
  qa_section w content s
  = (with_screen (saved s "pdf" content)
       (screen s ++
        [Enter qa_block;
         St_text_input "Ask a question about the financial report";
         Leave qa_block;
         qa_error e]),
     Return tt).
Proof.
  rewrite (qa_section_asks w content s idx llm qa Hload Hllm Hchain).
  now rewrite (truthy_nonempty _ Hquery), Hanswer.
Qed.

Lemma failed_answer_is_reported_witness :
  question Sample.world_rate_limited <> ""
  /\ qa_section Sample.world_rate_limited Sample.pdf Sample.s0
     = (with_screen (saved Sample.s0 "pdf" Sample.pdf)
          [Enter qa_block;
           St_text_input "Ask a question about the financial report";
           Leave qa_block;
           St_error "An error occurred while executing QA Section: RateLimitError"],
        Return tt).
Proof.
  assert (Hq : question Sample.world_rate_limited <> "") by discriminate.
  split; [exact Hq|].
  exact (failed_answer_is_reported Sample.world_rate_limited Sample.pdf Sample.s0
           ["page 1"; "page 2"] tt
           (fun q => inl (LibraryError "RateLimitError"))
           (LibraryError "RateLimitError")
           eq_refl eq_refl eq_refl Hq eq_refl).
Defined.

(** X17.  When the index cannot be built, the model cannot be configured or
    the chain cannot be made, the QA section draws the error of its handler
    and nothing else (no expander, no input), and returns; the copy of the
    upload saved for the index stays on disk. *)
Theorem qa_setup_failure_is_reported
    (w : World) (content : bytes) (s : Sys) (e : Exn)
    (Hfail :
       outcome (load_pdf_and_create_index w content) s = Raise e
       \/ (exists idx,
             outcome (load_pdf_and_create_index w content) s = Return idx
             /\ (OpenAI w = inl e
                 \/ exists llm,
                      OpenAI w = inr llm
                      /\ RetrievalQA_from_chain_type w idx = inl e))) :
  qa_section w content s
  = (with_screen (saved s "pdf" content) (screen s ++ [qa_error e]), Return tt).
Proof.
  unfold qa_section, try_except.
  destruct Hfail as [Hload|[idx [Hload [Hllm|[llm [Hllm Hchain]]]]]].
  - fail_with (load_outcome w content s _ Hload). reflexivity.
  - step (load_outcome w content s _ Hload). rewrite Hllm.
    rewrite (bind_raise _ _ _ _ _ (call_inl_run e _)). reflexivity.
  - step (load_outcome w content s _ Hload). rewrite Hllm.
    step (call_inr_run llm (saved s "pdf" content)). rewrite Hchain.
    rewrite (bind_raise _ _ _ _ _ (call_inl_run e _)). reflexivity.
Qed.

Lemma qa_setup_failure_is_reported_witness :
  outcome (load_pdf_and_create_index Sample.world_without_embeddings Sample.pdf)
    Sample.s0
  = Raise (LibraryError "APIConnectionError")
  /\ qa_section Sample.world_without_embeddings Sample.pdf Sample.s0
     = (with_screen (saved Sample.s0 "pdf" Sample.pdf)
          [St_error
             "An error occurred while executing QA Section: APIConnectionError"],
        Return tt).
Proof.
  split; [reflexivity|].
  exact (qa_setup_failure_is_reported Sample.world_without_embeddings Sample.pdf
           Sample.s0 (LibraryError "APIConnectionError") (or_introl eq_refl)).
Defined.

(* ===================================================================== *)
(** ** The page as a whole *)
(* ===================================================================== *)

Lemma draws_exactly_emit (e : Event) : DrawsExactly (emit e) [e].
Proof. intros s. reflexivity. Qed.

Lemma draws_exactly_seq (m k : M unit) (e1 e2 : list Event) :
  DrawsExactly m e1 -> DrawsExactly k e2 -> DrawsExactly (m ;; k) (e1 ++ e2).
Proof.
  intros H1 H2 s. unfold bind. rewrite H1, H2. tidy_screen. reflexivity.
Qed.

Lemma draws_exactly_within (c : Container) (m : M unit) (evs : list Event) :
  DrawsExactly m evs -> DrawsExactly (within c m) (Enter c :: evs ++ [Leave c]).
Proof.
  intros H s. unfold within, bind. rewrite emit_run, H. tidy_screen. reflexivity.
Qed.

Ltac draws_exactly :=
  lazymatch goal with
  | |- DrawsExactly (bind ?m (fun _ => ?k)) _ =>
      eapply (draws_exactly_seq m k); [draws_exactly | draws_exactly]
  | |- DrawsExactly (within ?c ?m) _ =>
      eapply (draws_exactly_within c m); draws_exactly
  | |- DrawsExactly (st_header ?x) _ => exact (draws_exactly_emit (St_header x))
  | |- DrawsExactly (st_write ?x) _ => exact (draws_exactly_emit (St_write x))
  end.

(** Runs [main] up to the test of the upload: the goal is left with the
    rest of [main] applied to the state in which [page_top] is drawn. *)
Ltac to_upload :=
  unfold main, st_title, st_file_uploader;
  match goal with
  | |- context [bind (emit ?e) ?f ?st] =>
      rewrite (bind_return _ f st _ tt (emit_run e st))
  end;
  cbv beta;
  match goal with
  | |- context [bind (within Sidebar ?B) ?f ?st] =>
      let Hside := fresh "Hside" in
      assert (Hside : exists evs,
                 DrawsExactly (within Sidebar B) evs /\ evs = sidebar_events)
        by (eexists; split; [draws_exactly | reflexivity]);
      destruct Hside as [? [Hside ->]];
      rewrite (bind_return _ f st _ tt (Hside st));
      clear Hside
  end;
  cbv beta;
  rewrite bind_assoc;
  match goal with
  | |- context [bind (emit ?e) ?f ?st] =>
      rewrite (bind_return _ f st _ tt (emit_run e st))
  end;
  cbv beta;
  match goal with
  | |- context [bind (ret ?a) ?f ?st] => rewrite (bind_return _ f st st a eq_refl)
  end;
  cbv beta;
  rewrite !with_screen_twice;
  match goal with
  | |- context [with_screen ?s0 ?evs] =>
      replace evs with (screen s0 ++ page_top)%list
        by (unfold page_top, with_screen; cbn [screen];
            repeat rewrite <- app_assoc; reflexivity)
  end.

(** X18.  Without an upload [main] draws the title, the sidebar, the
    uploader and the example image, and returns: no library is called and
    nothing is written to disk. *)
Theorem main_without_upload (w : World) (s : Sys)
    (Hnone : uploaded_file w = None) :
  main w s
  = (with_screen s
       (screen s ++ page_top ++
        [St_image "Financial_Statement_Format.PNG" "Example Document"]),
     Return tt).
Proof.
  to_upload. rewrite Hnone. unfold st_image. rewrite emit_run.
  rewrite with_screen_twice. unfold with_screen. cbn [screen].
  now rewrite <- app_assoc.
Qed.

Lemma main_without_upload_witness :
  uploaded_file Sample.world_without_upload = None
  /\ main Sample.world_without_upload Sample.s0
     = (with_screen Sample.s0
          (page_top ++
           [St_image "Financial_Statement_Format.PNG" "Example Document"]),
        Return tt).
Proof.
  split; [reflexivity|].
  exact (main_without_upload Sample.world_without_upload Sample.s0 eq_refl).
Defined.

Lemma extract_text_from_pdf_fails (w : World) (content : bytes) (e : Exn)
      (s : Sys) :
  fitz_open w content = inl e ->
  extract_text_from_pdf w content s = (s, Raise e).
Proof. intros H. unfold extract_text_from_pdf. now rewrite H. Qed.

(** X19.  When the uploaded bytes do not open as a document, [main] draws
    the message of its outer handler right after the uploader and returns:
    no block is drawn, no file is written and no other library is called. *)
Theorem unreadable_document_stops_the_page
    (w : World) (content : bytes) (e : Exn) (s : Sys)
    (Hupload : uploaded_file w = Some content)
    (Hopen : fitz_open w content = inl e) :
  main w s = (with_screen s (screen s ++ page_top ++ [page_error e]), Return tt).
Proof.
  to_upload. rewrite Hupload. unfold try_except.
  fail_with (extract_text_from_pdf_fails w content e
               (with_screen s (screen s ++ page_top)) Hopen).
  unfold st_error. rewrite emit_run, with_screen_twice.
  unfold with_screen, page_error. cbn [screen]. now rewrite <- app_assoc.
Qed.

Lemma unreadable_document_stops_the_page_witness :
  uploaded_file Sample.world_unreadable = Some "not a pdf"
  /\ fitz_open Sample.world_unreadable "not a pdf"
     = inl (LibraryError "Failed to open stream")
  /\ main Sample.world_unreadable Sample.s0
     = (with_screen Sample.s0
          (page_top ++ [St_error "An error occurred: Failed to open stream"]),
        Return tt).
Proof.
  split; [reflexivity|]. split; [reflexivity|].
  exact (unreadable_document_stops_the_page Sample.world_unreadable "not a pdf"
           (LibraryError "Failed to open stream") Sample.s0 eq_refl eq_refl).
Defined.

(** X20.  Where an exception can leave [main]: only from a Streamlit call
    outside its [try], that is [st.title], the sidebar or [st.file_uploader]
    (lines 116 to 130), the [st.error] of the outer handler (line 201) or
    [st.image] (line 204).  With any computations in their place, and any in
    the place of the body of the [try], an exception that [main] raises is
    one that one of those five raised: whatever the analysis of the upload
    raises (lines 134 to 198) is met by the handler.  So when those five
    return, [main] returns. *)
Theorem main_raises_only_outside_try (w : World) :
  main w
  = main_around st_title sidebar_of_main (st_file_uploader w) (analysis w)
      st_error st_image
  /\ (forall title sidebar uploader body error image (s : Sys) (e : Exn),
        outcome (main_around title sidebar uploader body error image) s
        = Raise e ->
        (exists x s', outcome (title x) s' = Raise e)
        \/ (exists s', outcome sidebar s' = Raise e)
        \/ (exists x s', outcome (uploader x) s' = Raise e)
        \/ (exists x s', outcome (error x) s' = Raise e)
        \/ (exists x y s', outcome (image x y) s' = Raise e))
  /\ (forall title sidebar uploader body error image (s : Sys),
        (forall x s', exists s'', title x s' = (s'', Return tt)) ->
        (forall s', exists s'', sidebar s' = (s'', Return tt)) ->
        (forall x s', exists s'' f, uploader x s' = (s'', Return f)) ->
        (forall x s', exists s'', error x s' = (s'', Return tt)) ->
        (forall x y s', exists s'', image x y s' = (s'', Return tt)) ->
        outcome (main_around title sidebar uploader body error image) s
        = Return tt).
Proof.
  assert (Hout : forall title sidebar uploader body error image (s : Sys) (e : Exn),
            outcome (main_around title sidebar uploader body error image) s
            = Raise e ->
            (exists x s', outcome (title x) s' = Raise e)
            \/ (exists s', outcome sidebar s' = Raise e)
            \/ (exists x s', outcome (uploader x) s' = Raise e)
            \/ (exists x s', outcome (error x) s' = Raise e)
            \/ (exists x y s', outcome (image x y) s' = Raise e)).
  { intros title sidebar uploader body error image s e.
    unfold main_around, outcome, bind.
    match goal with
    | |- context [title ?x s] => destruct (title x s) as [s1 [[]|e1]] eqn:Htitle
    end; cbn [snd].
    2:{ intros H. left. eexists _, s. rewrite Htitle. exact H. }
    destruct (sidebar s1) as [s2 [[]|e2]] eqn:Hside; cbn [snd].
    2:{ intros H. right. left. exists s1. rewrite Hside. exact H. }
    match goal with
    | |- context [uploader ?x s2] =>
        destruct (uploader x s2) as [s3 [[c|]|e3]] eqn:Hup
    end; cbn [snd].
    - unfold try_except. destruct (body c s3) as [s4 [[]|e4]]; [discriminate|].
      intros H. right. right. right. left.
      eexists _, s4. exact H.
    - intros H. right. right. right. right.
      eexists _, _, s3. exact H.
    - intros H. right. right. left. eexists _, s2. rewrite Hup.
      injection H as ->. reflexivity. }
  split; [unfold main, main_around, sidebar_of_main, analysis; reflexivity|].
  split; [exact Hout|].
  intros title sidebar uploader body error image s Ht Hs Hu He Hi.
  destruct (outcome (main_around title sidebar uploader body error image) s)
    as [[]|e] eqn:Hmain; [reflexivity|].
  destruct (Hout _ _ _ _ _ _ _ _ Hmain)
    as [[x [s' H]]|[[s' H]|[[x [s' H]]|[[x [s' H]]|[x [y [s' H]]]]]]];
    unfold outcome in H.
  - destruct (Ht x s') as [s'' E]. rewrite E in H. discriminate H.
  - destruct (Hs s') as [s'' E]. rewrite E in H. discriminate H.
  - destruct (Hu x s') as [s'' [f E]]. rewrite E in H. discriminate H.
  - destruct (He x s') as [s'' E]. rewrite E in H. discriminate H.
  - destruct (Hi x y s') as [s'' E]. rewrite E in H. discriminate H.
Qed.

Lemma disk_lookup_remove_other (d : list (string * bytes)) (p' p : string) :
  String.eqb p' p = false ->
  disk_lookup (disk_remove d p') p = disk_lookup d p.
Proof.
  intros Hne. induction d as [|[q c] d IH]; simpl; [reflexivity|].
  destruct (String.eqb_spec q p') as [->|Hq]; simpl.
  - now rewrite Hne.
  - now rewrite IH.
Qed.

(** Saving the same bytes again loses no earlier copy. *)
Lemma lookup_survives_save (s : Sys) (suffix : string) (c : bytes) (p : string) :
  disk_lookup (disk s) p = Some c ->
  disk_lookup (disk (saved s suffix c)) p = Some c.
Proof.
  intros H. unfold saved. cbn [disk disk_lookup].
  destruct (String.eqb (tmp_name (tmp_seq s) suffix) p) eqn:E; [reflexivity|].
  now rewrite disk_lookup_remove_other.
Qed.

(** [main] when the metadata block returns: both later blocks run, each
    after saving its own copy of the upload. *)
Lemma main_saves_twice
      (w : World) (content : bytes) (doc : Document)
      (ents : list (string * string)) (s : Sys) :
  uploaded_file w = Some content ->
  fitz_open w content = inr doc ->
  spacy_ents w (join (map get_text doc)) = inr ents ->
  search date_pattern (lower (join (map get_text doc))) = true ->
  exists st evs evs',
    disk st = disk s /\ tmp_seq st = tmp_seq s
    /\ main w s
       = (with_screen
            (saved (with_screen (saved st ".pdf" content) evs) "pdf" content)
            evs',
          Return tt).
Proof.
  intros Hupload Hopen Hents Hperiod.
  to_upload. rewrite Hupload. unfold try_except.
  match goal with
  | |- context [bind (extract_text_from_pdf w content) ?f ?st] =>
      rewrite (bind_return _ f st _ _ (extract_text_from_pdf_ok w content doc st Hopen))
  end.
  cbv beta. unfold st_write at 1, st_subheader at 1.
  match goal with
  | |- context [bind (emit ?e) ?f ?st] =>
      rewrite (bind_return _ f st _ tt (emit_run e st))
  end.
  cbv beta.
  match goal with
  | |- context [bind (emit ?e) ?f ?st] =>
      rewrite (bind_return _ f st _ tt (emit_run e st))
  end.
  cbv beta.
  match goal with
  | |- context [bind (company_name_and_period_ending w ?t) ?f ?st] =>
      pose proof (metadata_block_runs w t ents st Hents) as Hmeta;
      destruct (findall date_pattern (lower t)) as [|tup rest] eqn:Hf;
      [apply findall_nil_iff in Hf; congruence|];
      rewrite (bind_return _ f st _ tt Hmeta)
  end.
  cbv beta.
  match goal with
  | |- context [bind (key_financial_statements w content) ?f ?st] =>
      destruct (tables_block_completes w content st) as [evs Htables];
      rewrite (bind_return _ f st _ tt Htables)
  end.
  cbv beta.
  match goal with
  | |- context [qa_section w content ?st] =>
      destruct (qa_block_completes w content st) as [evs' [Hqa _]];
      rewrite Hqa
  end.
  eexists _, _, _. split; [|split; [|reflexivity]]; reflexivity.
Qed.

(** X21.  Each analysed upload leaves two copies on disk.  When the
    document opens and the metadata block returns, [main] ends with two
    more temporary files than it began with: the one saved for the Table
    Locator and the one saved for the index both hold the uploaded bytes. *)
Theorem main_leaves_two_copies
    (w : World) (content : bytes) (doc : Document)
    (ents : list (string * string)) (s : Sys)
    (Hupload : uploaded_file w = Some content)
    (Hopen : fitz_open w content = inr doc)
    (Hents : spacy_ents w (join (map get_text doc)) = inr ents)
    (Hperiod : search date_pattern (lower (join (map get_text doc))) = true) :
  tmp_seq (state_after (main w) s) = tmp_seq s + 2
  /\ disk_lookup (disk (state_after (main w) s)) (tmp_name (tmp_seq s) ".pdf")
     = Some content
  /\ disk_lookup (disk (state_after (main w) s))
       (tmp_name (tmp_seq s + 1) "pdf")
     = Some content.
Proof.
  destruct (main_saves_twice w content doc ents s Hupload Hopen Hents Hperiod)
    as [st [evs [evs' [Hdisk [Hseq Hmain]]]]].
  unfold state_after. rewrite Hmain. cbn [fst].
  unfold with_screen at 1. cbn [disk tmp_seq].
  split; [|split].
  - unfold saved, with_screen. cbn [tmp_seq]. lia.
  - apply lookup_survives_save. unfold with_screen. cbn [disk].
    rewrite <- Hseq. apply saved_lookup.
  - replace (tmp_seq s + 1) with (tmp_seq (with_screen (saved st ".pdf" content) evs))
      by (unfold with_screen, saved; cbn [tmp_seq]; lia).
    apply saved_lookup.
Qed.

Lemma main_leaves_two_copies_witness :
  tmp_seq (state_after (main Sample.world) Sample.s0) = tmp_seq Sample.s0 + 2
  /\ disk_lookup (disk (state_after (main Sample.world) Sample.s0))
       "/tmp/tmp0.pdf" = Some Sample.pdf
  /\ disk_lookup (disk (state_after (main Sample.world) Sample.s0))
       "/tmp/tmp1pdf" = Some Sample.pdf.
Proof.
  exact (main_leaves_two_copies Sample.world Sample.pdf Sample.doc
           [("Hewlett Packard Enterprise Company", "ORG"); ("April 30", "DATE")]
           Sample.s0 eq_refl eq_refl eq_refl eq_refl).
Defined.

(* ===================================================================== *)
(** ** The tables block *)
(* ===================================================================== *)

(** What [show_tables] draws for one, two, three or more grids. *)
Lemma show_tables_run (g : Grid) (dataframes : list Grid) (s : Sys) :
  show_tables (g :: dataframes) s
  = (with_screen s
       (screen s ++ flat_map labeled (combine table_labels (g :: dataframes))),
     Return tt).
Proof.
  destruct dataframes as [|g2 [|g3 rest]];
    unfold show_tables, with_screen;
    repeat (unfold st_write, st_subheader, st_dataframe, emit, bind, ret; simpl);
    repeat rewrite <- app_assoc; reflexivity.
Qed.

(** X22.  Labels go by position among the kept tables.  When tables are
    detected and every neighborhood can be read, the tables block draws,
    for the grids kept by the keywords of [main] in detection order, the
    first under "Consolidated Statements of Earnings", the second under
    "Consolidated Balance Sheets" and the third under "Consolidated
    Statements of Cash Flows", whatever they contain, and no other grid;
    when no grid is kept it writes that no tables matched. *)
Theorem tables_block_labels_by_position
    (w : World) (content : bytes) (s : Sys) (t : Table.t) (tables : list Table.t)
    (Hdetect : camelot_read_pdf w content = inr (t :: tables))
    (Hread : forall t', In t' (t :: tables) -> neighborhood w content t' <> None) :
  key_financial_statements w content s
  = (with_screen (saved s ".pdf" content)
       (screen s ++
        Enter tables_block
        :: match selected w content keywords_of_main (t :: tables) with
           | [] => [St_write "No tables matching the specified keywords extracted."]
           | kept => flat_map labeled (combine table_labels kept)
           end ++ [Leave tables_block]),
     Return tt).
Proof.
  unfold key_financial_statements, within.
  step (emit_run (Enter (Expander "Key Financial Statements")) s).
  step (extract_key_tables_selects w content keywords_of_main
          (with_screen s (screen s ++ [Enter (Expander "Key Financial Statements")]))
          (t :: tables) Hdetect Hread).
  destruct (selected w content keywords_of_main (t :: tables)) as [|g kept].
  - unfold show_tables, st_write. rewrite emit_run.
    tidy_screen. unfold saved. cbn [disk tmp_seq screen].
    rewrite <- ?app_assoc. reflexivity.
  - rewrite show_tables_run.
    tidy_screen. unfold saved. cbn [disk tmp_seq screen].
    rewrite <- ?app_assoc. reflexivity.
Qed.

Lemma tables_block_labels_by_position_witness :
  camelot_read_pdf Sample.world Sample.pdf = inr Sample.tables
  /\ (forall t, In t Sample.tables ->
                neighborhood Sample.world Sample.pdf t <> None)
  /\ key_financial_statements Sample.world Sample.pdf Sample.s0
     = (with_screen (saved Sample.s0 ".pdf" Sample.pdf)
          [Enter tables_block;
           St_subheader "Consolidated Statements of Earnings";
           St_dataframe Sample.earnings;
           St_subheader "Consolidated Balance Sheets";
           St_dataframe Sample.balance;
           Leave tables_block],
        Return tt).
Proof.
  assert (H : forall t, In t Sample.tables ->
                        neighborhood Sample.world Sample.pdf t <> None).
  { intros t [<-|[<-|[<-|[]]]]; discriminate. }
  split; [reflexivity|]. split; [exact H|].
  exact (tables_block_labels_by_position Sample.world Sample.pdf Sample.s0
           _ _ eq_refl H).
Defined.

(** X23.  When table detection raises, the tables block shows two
    messages: the error drawn by the handler of the Table Locator and, since
    the result is empty, the line that no tables matched. *)
Theorem failed_detection_shows_two_messages
    (w : World) (content : bytes) (s : Sys) (e : Exn)
    (Hraise : camelot_read_pdf w content = inl e) :
  key_financial_statements w content s
  = (with_screen (saved s ".pdf" content)
       (screen s ++
        [Enter tables_block;
         reading_error e;
         St_write "No tables matching the specified keywords extracted.";
         Leave tables_block]),
     Return tt).
Proof.
  unfold key_financial_statements, within.
  step (emit_run (Enter (Expander "Key Financial Statements")) s).
  match goal with
  | |- context [bind (extract_key_tables_from_pdf w content ?k) ?f ?st] =>
      assert (Hrun : extract_key_tables_from_pdf w content k st
                     = (with_screen (saved st ".pdf" content)
                          (screen st ++ [reading_error e]), Return []))
  end.
  { unfold extract_key_tables_from_pdf.
    match goal with
    | |- context [bind (NamedTemporaryFile false ".pdf" ?b) ?f ?st] =>
        rewrite (bind_return _ f st _ _ (save_upload ".pdf" content st))
    end.
    cbv beta. rewrite truthy_tmp_name. cbv iota. unfold try_except.
    match goal with
    | |- context [bind (read_file ?p) ?f ?st] =>
        rewrite (bind_return _ f st _ _
                   (read_file_found _ _ _ (saved_lookup _ ".pdf" content)))
    end.
    rewrite Hraise. reflexivity. }
  step Hrun. unfold show_tables, st_write. rewrite emit_run.
  tidy_screen. unfold saved, reading_error. cbn [disk tmp_seq screen].
  rewrite <- ?app_assoc. reflexivity.
Qed.

Lemma failed_detection_shows_two_messages_witness :
  camelot_read_pdf Sample.world_tables_and_qa_down Sample.pdf
  = inl (LibraryError "Ghostscript is not installed")
  /\ key_financial_statements Sample.world_tables_and_qa_down Sample.pdf Sample.s0
     = (with_screen (saved Sample.s0 ".pdf" Sample.pdf)
          [Enter tables_block;
           St_error
             "An error occurred while reading key tables from PDF: Ghostscript is not installed";
           St_write "No tables matching the specified keywords extracted.";
           Leave tables_block],
        Return tt).
Proof.
  split; [reflexivity|].
  exact (failed_detection_shows_two_messages Sample.world_tables_and_qa_down
           Sample.pdf Sample.s0 _ eq_refl).
Defined.

(* ===================================================================== *)
(** ** The metadata block *)
(* ===================================================================== *)

(** X24.  The metadata block writes no file, and only two things can end it
    early: an exception of the recognizer, or the [KeyError: 0] of the
    Period Extractor.  The frame indexing of the company filter never
    raises: [iloc[0]] is only reached for a non-empty frame. *)
Theorem metadata_block_exits (w : World) (text : string) (s : Sys) :
  disk (state_after (company_name_and_period_ending w text) s) = disk s
  /\ tmp_seq (state_after (company_name_and_period_ending w text) s) = tmp_seq s
  /\ (outcome (company_name_and_period_ending w text) s = Return tt
      \/ (search date_pattern (lower text) = false
          /\ outcome (company_name_and_period_ending w text) s
             = Raise (KeyError "0"))
      \/ exists e,
           spacy_ents w text = inl e
           /\ outcome (company_name_and_period_ending w text) s = Raise e).
Proof.
  unfold state_after, outcome.
  destruct (spacy_ents w text) as [e|ents] eqn:Hents.
  - rewrite (metadata_block_fails w text e s Hents).
    split; [reflexivity|]. split; [reflexivity|]. right. right. now exists e.
  - rewrite (metadata_block_runs w text ents s Hents).
    destruct (findall date_pattern (lower text)) as [|tup rest] eqn:Hf.
    + apply findall_nil_iff in Hf.
      split; [reflexivity|]. split; [reflexivity|]. right. left. now split.
    + split; [reflexivity|]. split; [reflexivity|]. now left.
Qed.

Section HardStops.
Variable w : World.
Variable content : bytes.
Variable doc : Document.
Variable s : Sys.
Hypothesis Hupload : uploaded_file w = Some content.
Hypothesis Hopen : fitz_open w content = inr doc.

(** [main] when the metadata block raises. *)
Lemma main_stops_at_metadata (evs : list Event) (e : Exn) :
  (forall st,
     company_name_and_period_ending w (join (map get_text doc)) st
     = (with_screen st (screen st ++ evs), Raise e)) ->
  main w s
  = (with_screen s
       (screen s ++ page_top ++ key_points ++ evs ++ [page_error e]),
     Return tt).
Proof.
  intros Hmeta. to_upload. rewrite Hupload. unfold try_except.
  match goal with
  | |- context [bind (extract_text_from_pdf w content) ?f ?st] =>
      rewrite (bind_return _ f st _ _ (extract_text_from_pdf_ok w content doc st Hopen))
  end.
  cbv beta. unfold st_write at 1, st_subheader at 1.
  match goal with
  | |- context [bind (emit ?e) ?f ?st] =>
      rewrite (bind_return _ f st _ tt (emit_run e st))
  end.
  cbv beta.
  match goal with
  | |- context [bind (emit ?e) ?f ?st] =>
      rewrite (bind_return _ f st _ tt (emit_run e st))
  end.
  cbv beta.
  match goal with
  | |- context [bind (company_name_and_period_ending w ?t) ?f ?st] =>
      rewrite (bind_raise _ f st _ e (Hmeta st))
  end.
  unfold st_error. rewrite emit_run.
  unfold with_screen, page_error, key_points. cbn [disk tmp_seq screen].
  repeat rewrite <- app_assoc. reflexivity.
Qed.

End HardStops.

(** X25.  A document without a period statement stops the page.  When the
    pattern has no match in the extracted text, [main] draws the company
    line, leaves the metadata block and ends with "An error occurred: 0":
    the "No specific dates found" line, the tables block and the QA section
    are not drawn, and no temporary file is written. *)
Theorem missing_period_stops_the_page
    (w : World) (content : bytes) (doc : Document)
    (ents : list (string * string)) (s : Sys)
    (Hupload : uploaded_file w = Some content)
    (Hopen : fitz_open w content = inr doc)
    (Hents : spacy_ents w (join (map get_text doc)) = inr ents)
    (Hperiod : search date_pattern (lower (join (map get_text doc))) = false) :
  main w s
  = (with_screen s
       (screen s ++ page_top ++ key_points ++
        [Enter metadata_block;
         St_write (company_line (org_names ents));
         Leave metadata_block;
         St_error "An error occurred: 0"]),
     Return tt).
Proof.
  apply findall_nil_iff in Hperiod.
  rewrite (main_stops_at_metadata w content doc s Hupload Hopen
             [Enter metadata_block; St_write (company_line (org_names ents));
              Leave metadata_block]
             (KeyError "0")).
  - unfold page_error. simpl str_exn. now rewrite <- ?app_assoc.
  - intros st. rewrite (metadata_block_runs w _ ents st Hents). now rewrite Hperiod.
Qed.

Lemma missing_period_stops_the_page_witness :
  search date_pattern (lower Sample.undated_text) = false
  /\ main Sample.world_undated Sample.s0
     = (with_screen Sample.s0
          (page_top ++ key_points ++
           [Enter metadata_block;
            St_write " - Hewlett Packard Enterprise Company";
            Leave metadata_block;
            St_error "An error occurred: 0"]),
        Return tt).
Proof.
  split; [reflexivity|].
  exact (missing_period_stops_the_page Sample.world_undated Sample.pdf
           [mkPage Sample.undated_text (get_text_clip Sample.page1); Sample.page2]
           [("Hewlett Packard Enterprise Company", "ORG"); ("April 30", "DATE")]
           Sample.s0 eq_refl eq_refl eq_refl eq_refl).
Defined.

(** X26.  A failure of the recognizer stops the page: [main] enters and
    leaves the metadata block without a line, draws the recognizer's error
    with the outer handler and returns; the period is not looked for, the
    tables block and the QA section are not drawn and no temporary file is
    written. *)
Theorem recognizer_failure_page
    (w : World) (content : bytes) (doc : Document) (e : Exn) (s : Sys)
    (Hupload : uploaded_file w = Some content)
    (Hopen : fitz_open w content = inr doc)
    (Hents : spacy_ents w (join (map get_text doc)) = inl e) :
  main w s
  = (with_screen s
       (screen s ++ page_top ++ key_points ++
        [Enter metadata_block; Leave metadata_block; page_error e]),
     Return tt).
Proof.
  rewrite (main_stops_at_metadata w content doc s Hupload Hopen
             [Enter metadata_block; Leave metadata_block] e).
  - now rewrite <- ?app_assoc.
  - intros st. exact (metadata_block_fails w _ e st Hents).
Qed.

Lemma recognizer_failure_page_witness :
  main Sample.world_without_recognizer Sample.s0
  = (with_screen Sample.s0
       (page_top ++ key_points ++
        [Enter metadata_block; Leave metadata_block;
         St_error "An error occurred: [E050] Can't find model 'en_core_web_sm'."]),
     Return tt).
Proof.
  exact (recognizer_failure_page Sample.world_without_recognizer Sample.pdf
           Sample.doc (LibraryError "[E050] Can't find model 'en_core_web_sm'.")
           Sample.s0 eq_refl eq_refl eq_refl).
Defined.

(* ===================================================================== *)
(** ** Failures inside the table branch and the QA branch *)
(* ===================================================================== *)

Section BranchFailures.
Variable w : World.
Variable content : bytes.

(** The Table Locator by the ways its [try] can end: with the exception of
    the detection, with the unbound [doc] when no table is detected, with
    the exception of a table that cannot be read, or with the kept grids.
    An exception is drawn by the handler, and the result is then empty. *)
Lemma extract_key_tables_reports (keywords : list string) (s : Sys) :
  exists out evs,
    extract_key_tables_from_pdf w content keywords s
    = (with_screen (saved s ".pdf" content) (screen s ++ evs), Return out)
    /\ (evs <> [] -> out = [])
    /\ (forall e, camelot_read_pdf w content = inl e -> evs = [reading_error e])
    /\ (camelot_read_pdf w content = inr [] ->
        evs = [reading_error (UnboundLocalError "doc")])
    /\ (forall tables,
          camelot_read_pdf w content = inr tables ->
          (exists t, In t tables /\ neighborhood w content t = None) ->
          exists e, evs = [reading_error e]).
Proof.
  destruct (camelot_read_pdf w content) as [e|tables] eqn:Hcam.
  - exists [], [reading_error e]. split; [|split; [reflexivity|split; [|split]]].
    + unfold extract_key_tables_from_pdf.
      rewrite (bind_return _ _ _ _ _ (save_upload ".pdf" content s)).
      cbv beta. rewrite truthy_tmp_name. cbv iota. unfold try_except.
      rewrite (bind_return _ _ _ _ _
                 (read_file_found _ _ _ (saved_lookup s ".pdf" content))).
      rewrite Hcam. reflexivity.
    + intros e' H. now injection H as ->.
    + discriminate.
    + discriminate.
  - destruct (existsb (fun t => match neighborhood w content t with
                                | None => true
                                | Some _ => false
                                end) tables) eqn:Hex.
    + apply existsb_exists in Hex as [t [Hin Ht]].
      assert (Hstray : exists t, In t tables /\ neighborhood w content t = None).
      { exists t. split; [exact Hin|]. now destruct (neighborhood w content t). }
      destruct (loop_unreadable w content keywords (tmp_name (tmp_seq s) ".pdf")
                  (saved s ".pdf" content) tables
                  (saved_lookup s ".pdf" content) Hstray (None, []))
        as [e He].
      exists [], [reading_error e]. split; [|split; [reflexivity|split; [|split]]].
      * unfold extract_key_tables_from_pdf.
        rewrite (bind_return _ _ _ _ _ (save_upload ".pdf" content s)).
        cbv beta. rewrite truthy_tmp_name. cbv iota. unfold try_except.
        rewrite (bind_return _ _ _ _ _
                   (read_file_found _ _ _ (saved_lookup s ".pdf" content))).
        rewrite Hcam.
        rewrite (bind_return _ _ (saved s ".pdf" content) _ tables eq_refl).
        cbv zeta. rewrite (bind_raise _ _ _ _ _ He). reflexivity.
      * discriminate.
      * intros H. injection H as ->. contradiction.
      * intros tables' _ _. now exists e.
    + assert (Hread : forall t, In t tables -> neighborhood w content t <> None).
      { intros t Hin Hn.
        assert (Hex' : existsb (fun t => match neighborhood w content t with
                                         | None => true
                                         | Some _ => false
                                         end) tables = true)
          by (apply existsb_exists; exists t; split; [exact Hin | now rewrite Hn]).
        congruence. }
      exists (selected w content keywords tables),
             (match tables with
              | [] => [reading_error (UnboundLocalError "doc")]
              | _ :: _ => []
              end).
      split; [|split; [|split; [|split]]].
      * exact (extract_key_tables_selects w content keywords s tables Hcam Hread).
      * destruct tables; [reflexivity | congruence].
      * discriminate.
      * intros H. now injection H as ->.
      * intros tables' H [t [Hin Hn]]. injection H as <-.
        now destruct (Hread t Hin).
Qed.

(** The tables block is drawn to its end in every case, and an exception
    raised inside the [try] of the Table Locator is shown in it, followed by
    the line for an empty result. *)
Lemma tables_block_reports (s : Sys) :
  exists evs,
    key_financial_statements w content s
    = (with_screen (saved s ".pdf" content)
         (screen s ++ Enter tables_block :: evs ++ [Leave tables_block]),
       Return tt)
    /\ (forall e, camelot_read_pdf w content = inl e ->
                  evs = [reading_error e; no_tables_line])
    /\ (camelot_read_pdf w content = inr [] ->
        evs = [reading_error (UnboundLocalError "doc"); no_tables_line])
    /\ (forall tables,
          camelot_read_pdf w content = inr tables ->
          (exists t, In t tables /\ neighborhood w content t = None) ->
          exists e, evs = [reading_error e; no_tables_line]).
Proof.
  unfold key_financial_statements, within.
  step (emit_run (Enter (Expander "Key Financial Statements")) s).
  destruct (extract_key_tables_reports keywords_of_main
              (with_screen s
                 (screen s ++ [Enter (Expander "Key Financial Statements")])))
    as [out [evs [Hrun [Hout [Hdet [Hnone Hstray]]]]]].
  step Hrun.
  destruct out as [|g out].
  - exists (evs ++ [no_tables_line])%list.
    split; [|split; [|split]].
    + unfold show_tables, st_write. rewrite emit_run.
      tidy_screen. unfold saved, no_tables_line. cbn [disk tmp_seq screen].
      rewrite <- ?app_assoc. reflexivity.
    + intros e H. now rewrite (Hdet e H).
    + intros H. now rewrite (Hnone H).
    + intros tables H Hs. destruct (Hstray tables H Hs) as [e ->]. now exists e.
  - assert (Hevs : evs = []).
    { destruct evs as [|ev evs]; [reflexivity|].
      assert (Hne : ev :: evs <> []) by discriminate.
      discriminate (Hout Hne). }
    subst evs.
    exists (flat_map labeled (combine table_labels (g :: out))).
    split; [|split; [|split]].
    + rewrite show_tables_run.
      tidy_screen. unfold saved. cbn [disk tmp_seq screen].
      rewrite <- ?app_assoc. reflexivity.
    + intros e H. discriminate (Hdet e H).
    + intros H. discriminate (Hnone H).
    + intros tables H Hs. destruct (Hstray tables H Hs) as [e He].
      discriminate He.
Qed.

(** The QA section returns in every case, and an exception raised inside
    its [try] is the last thing it draws; without one, the last thing drawn
    is the end of the expander. *)
Lemma qa_section_reports (s : Sys) :
  exists evs,
    qa_section w content s
    = (with_screen (saved s "pdf" content) (screen s ++ evs), Return tt)
    /\ last evs (St_title "")
       = match qa_failure w content with
         | Some e => qa_error e
         | None => Leave qa_block
         end.
Proof.
  assert (Hload :
            load_pdf_and_create_index w content s
            = (saved s "pdf" content,
               match loader_load_and_split w content with
               | inl e => Raise e
               | inr pages =>
                   match split_documents w (String "010" "") 2000 200 pages with
                   | inl e => Raise e
                   | inr texts =>
                       match from_documents w texts with
                       | inl e => Raise e
                       | inr vectorstore_index => Return vectorstore_index
                       end
                   end
               end)).
  { unfold load_pdf_and_create_index.
    rewrite (bind_return _ _ _ _ _ (save_upload "pdf" content s)). cbv beta.
    rewrite (bind_return _ _ _ _ _
               (read_file_found _ _ _ (saved_lookup s "pdf" content))).
    destruct (loader_load_and_split w content) as [e|pages]; [reflexivity|].
    rewrite (bind_return _ _ (saved s "pdf" content) _ pages eq_refl).
    destruct (split_documents w (String "010" "") 2000 200 pages) as [e|texts];
      [reflexivity|].
    rewrite (bind_return _ _ (saved s "pdf" content) _ texts eq_refl).
    destruct (from_documents w texts) as [e|idx]; reflexivity. }
  unfold qa_failure.
  destruct (loader_load_and_split w content) as [e|pages].
  { exists [qa_error e]. split; [|reflexivity].
    unfold qa_section, try_except. fail_with Hload. reflexivity. }
  destruct (split_documents w (String "010" "") 2000 200 pages) as [e|texts].
  { exists [qa_error e]. split; [|reflexivity].
    unfold qa_section, try_except. fail_with Hload. reflexivity. }
  destruct (from_documents w texts) as [e|idx].
  { exists [qa_error e]. split; [|reflexivity].
    unfold qa_section, try_except. fail_with Hload. reflexivity. }
  destruct (OpenAI w) as [e|llm] eqn:Hllm.
  { exists [qa_error e]. split; [|reflexivity].
    unfold qa_section, try_except. step Hload. rewrite Hllm.
    rewrite (bind_raise _ _ _ _ _ (call_inl_run e _)). reflexivity. }
  destruct (RetrievalQA_from_chain_type w idx) as [e|qa] eqn:Hchain.
  { exists [qa_error e]. split; [|reflexivity].
    unfold qa_section, try_except. step Hload. rewrite Hllm.
    step (call_inr_run llm (saved s "pdf" content)). rewrite Hchain.
    rewrite (bind_raise _ _ _ _ _ (call_inl_run e _)). reflexivity. }
  assert (Hidx : outcome (load_pdf_and_create_index w content) s = Return idx)
    by (unfold outcome; now rewrite Hload).
  rewrite (qa_section_asks w content s idx llm qa Hidx Hllm Hchain).
  destruct (truthy (question w)); [destruct (qa (question w)) as [e|result]|].
  - exists [Enter qa_block;
            St_text_input "Ask a question about the financial report";
            Leave qa_block; qa_error e].
    split; reflexivity.
  - exists [Enter qa_block;
            St_text_input "Ask a question about the financial report";
            St_write ("Answer: " ++ fst result);
            St_write ("Source Documents: " ++ snd result);
            Leave qa_block].
    split; reflexivity.
  - exists [Enter qa_block;
            St_text_input "Ask a question about the financial report";
            Leave qa_block].
    split; reflexivity.
Qed.

End BranchFailures.

(** C3, amended.  For an uploaded document whose text is extracted, [main]
    runs the metadata block and then, if that block returns, the tables
    block and the QA section, and returns.  An exception raised inside the
    [try] of the Table Locator (by the detection, by the closing of a
    document that no table opened, or while the text of a table is read) is
    reported inside the tables block, followed by the line for an empty
    result, and the block is drawn to its end.  An exception raised inside
    the [try] of the QA section (while the index is built, the model or the
    chain is set up, or the question is answered) is reported as the last
    thing the section draws, and the section returns.  Neither stops the
    other branch.  An exception raised by the metadata block is not
    contained: the outer handler reports it, and the tables block and the QA
    section do not run.  (The Table Locator writes its temporary file
    before its [try]; that write is taken to succeed, as are the Streamlit
    calls.) *)
Theorem table_and_qa_failures_are_contained
    (w : World) (content : bytes) (doc : Document) (s : Sys)
    (Hupload : uploaded_file w = Some content)
    (Hopen : fitz_open w content = inr doc) :
  main w s
  = match company_name_and_period_ending w (join (map get_text doc))
            (with_screen s (screen s ++ page_top ++ key_points)) with
    | (s2, Return _) =>
        (state_after (qa_section w content)
           (state_after (key_financial_statements w content) s2),
         Return tt)
    | (s2, Raise e) =>
        (with_screen s2 (screen s2 ++ [page_error e]), Return tt)
    end
  /\ (forall s2, exists evs,
        key_financial_statements w content s2
        = (with_screen (saved s2 ".pdf" content)
             (screen s2 ++ Enter tables_block :: evs ++ [Leave tables_block]),
           Return tt)
        /\ (forall e, camelot_read_pdf w content = inl e ->
                      evs = [reading_error e; no_tables_line])
        /\ (camelot_read_pdf w content = inr [] ->
            evs = [reading_error (UnboundLocalError "doc"); no_tables_line])
        /\ (forall tables,
              camelot_read_pdf w content = inr tables ->
              (exists t, In t tables /\ neighborhood w content t = None) ->
              exists e, evs = [reading_error e; no_tables_line]))
  /\ (forall s3, exists evs,
        qa_section w content s3
        = (with_screen (saved s3 "pdf" content) (screen s3 ++ evs), Return tt)
        /\ last evs (St_title "")
           = match qa_failure w content with
             | Some e => qa_error e
             | None => Leave qa_block
             end).
Proof.
  split; [|split; [intros s2; apply tables_block_reports
                  |intros s3; apply qa_section_reports]].
  to_upload. rewrite Hupload. unfold try_except.
  match goal with
  | |- context [bind (extract_text_from_pdf w content) ?f ?st] =>
      rewrite (bind_return _ f st _ _ (extract_text_from_pdf_ok w content doc st Hopen))
  end.
  cbv beta. unfold st_write at 1, st_subheader at 1.
  match goal with
  | |- context [bind (emit ?e) ?f ?st] =>
      rewrite (bind_return _ f st _ tt (emit_run e st))
  end.
  cbv beta.
  match goal with
  | |- context [bind (emit ?e) ?f ?st] =>
      rewrite (bind_return _ f st _ tt (emit_run e st))
  end.
  cbv beta.
  rewrite !with_screen_twice.
  match goal with
  | |- context [bind (company_name_and_period_ending w ?t) ?f (with_screen ?s0 ?evs)] =>
      replace evs with (screen s0 ++ page_top ++ key_points)%list
        by (unfold key_points, with_screen; cbn [screen];
            rewrite <- ?app_assoc; reflexivity)
  end.
  destruct (company_name_and_period_ending w (join (map get_text doc))
              (with_screen s (screen s ++ page_top ++ key_points)))
    as [s2 [[]|e]] eqn:Hmeta.
  - step Hmeta.
    destruct (tables_block_completes w content s2) as [evs Htables].
    step Htables.
    destruct (qa_block_completes w content
                (with_screen (saved s2 ".pdf" content)
                   (screen s2 ++ Enter tables_block :: evs ++ [Leave tables_block])))
      as [evs' [Hqa _]].
    unfold state_after. rewrite Htables. cbn [fst]. rewrite Hqa. reflexivity.
  - fail_with Hmeta. reflexivity.
Qed.

Lemma table_and_qa_failures_are_contained_witness :
  uploaded_file Sample.world_tables_and_qa_down = Some Sample.pdf
  /\ fitz_open Sample.world_tables_and_qa_down Sample.pdf = inr Sample.doc
  /\ (exists evs,
        key_financial_statements Sample.world_tables_and_qa_down Sample.pdf
          Sample.s0
        = (with_screen (saved Sample.s0 ".pdf" Sample.pdf)
             (screen Sample.s0 ++
              Enter tables_block :: evs ++ [Leave tables_block]),
           Return tt)
        /\ evs = [reading_error (LibraryError "Ghostscript is not installed");
                  no_tables_line])
  /\ (exists evs,
        qa_section Sample.world_tables_and_qa_down Sample.pdf Sample.s0
        = (with_screen (saved Sample.s0 "pdf" Sample.pdf)
             (screen Sample.s0 ++ evs),
           Return tt)
        /\ last evs (St_title "")
           = qa_error (LibraryError "Did not find openai_api_key")).
Proof.
  split; [reflexivity|]. split; [reflexivity|].
  destruct (table_and_qa_failures_are_contained
              Sample.world_tables_and_qa_down Sample.pdf Sample.doc Sample.s0
              eq_refl eq_refl) as [_ [Htables Hqa]].
  split.
  - destruct (Htables Sample.s0) as [evs [Hrun [Hdet _]]].
    exists evs. split; [exact Hrun|]. exact (Hdet _ eq_refl).
  - destruct (Hqa Sample.s0) as [evs [Hrun Hlast]].
    exists evs. split; [exact Hrun | exact Hlast].
Defined.
